(** * MLflow experiment-tracking plugin: the run mirror

    A shallow embedding of [__init__.py]: the helpers that mirror MLflow
    experiments and runs into a FiftyOne dataset's custom runs, and the
    query that lists experiment links.

    Python strings are modelled as [string] (their UTF-8 bytes; the hyphen
    and the underscore are single bytes that occur in no longer sequence),
    dicts as [gmap string _], exceptions as a sum type, and the mutable
    dataset together with the calls that can be observed from outside as an
    explicit state.  The FiftyOne dataset and the MLflow client are not part
    of the plugin: they are modelled by their interface, as the plugin uses
    it. *)

From Stdlib Require Import ZArith Ascii String.
From stdpp Require Import base option list gmap strings fin_maps.

Local Open Scope string_scope.
Local Open Scope list_scope.

(** ** Python values and exceptions *)

(** A binary64 number is only ever copied by this program; it is carried
    as its bit pattern. *)
Definition float64 := Z.

(** The exceptions that can travel through the plugin.  [ValueError] is what
    the dataset raises for an unknown run key; [MlflowException] stands for
    whatever the tracking client raises, with its message. *)
Inductive exn :=
| AttributeError (attr : string)
| KeyError (key : string)
| ValueError (key : string)
| MlflowException (msg : string).

(** The values this program stores in a run config. *)
Inductive value :=
| VStr (s : string)
| VInt (n : Z)
| VList (l : list string)
| VTags (d : gmap string string)
| VMetrics (d : gmap string float64).

(** An attribute of a config object: a stored value, or a descriptor whose
    getter raises. *)
Inductive attr :=
| Stored (v : value)
| Raising (e : exn).

(** [fiftyone.core.runs.RunConfig]: a dynamic attribute bag. *)
Abbreviation RunConfig := (gmap string attr).

Record RunInfo := { config : RunConfig }.

Abbreviation result := (sum exn).

(** [cfg.a] *)
Definition getattr (cfg : RunConfig) (a : string) : result value :=
  match cfg !! a with
  | Some (Stored v) => inr v
  | Some (Raising e) => inl e
  | None => inl (AttributeError a)
  end.

(** [cfg.a = v] *)
Definition setattr (cfg : RunConfig) (a : string) (v : value) : RunConfig :=
  <[a := Stored v]> cfg.

(** ** The dataset and the tracking service *)

(** The dataset's run registry is keyed by run key. *)
Record dataset := { name : string; runs : gmap string RunConfig }.

Inductive SampleCollection :=
| Dataset (d : dataset)
| DatasetView (d : dataset) (stages : list string).

Definition _dataset (sc : SampleCollection) : dataset :=
  match sc with Dataset d | DatasetView d _ => d end.

(** The collection once its dataset has changed: a view keeps its stages. *)
Definition with_dataset (sc : SampleCollection) (d : dataset) : SampleCollection :=
  match sc with
  | Dataset _ => Dataset d
  | DatasetView _ st => DatasetView d st
  end.

(** What [mlflow.get_experiment_by_name] and [mlflow.get_run] hand back. *)
Record experiment := {
  artifact_location : string;
  creation_time : Z;
  experiment_id : string;
  exp_tags : gmap string string }.

Record run_info := {
  run_uuid : string;
  info_experiment_id : string;
  artifact_uri : string }.

Record run_data := {
  tags : gmap string string;
  metrics : gmap string float64 }.

Record run := { info : run_info; data : run_data }.

(** The tracking client: each call raises or returns; an experiment lookup
    may also return [None]. *)
Record tracking := {
  get_experiment_by_name : string -> result (option experiment);
  get_run : string -> result run }.

(** Calls that leave the process or write to the registry, in order. *)
Inductive event :=
| EvGetExperimentByName (experiment_name : string)
| EvGetRun (run_id : string)
| EvRegisterRun (run_key : string)
| EvUpdateRunConfig (run_key : string).

Record world := { ds : dataset; trace : list event }.

(** ** State and exceptions *)

Definition M (A : Type) : Type := world -> result A * world.

Definition ret {A} (a : A) : M A := fun w => (inr a, w).
Definition bind {A B} (m : M A) (k : A -> M B) : M B :=
  fun w => match m w with
           | (inr a, w') => k a w'
           | (inl e, w') => (inl e, w')
           end.
Definition lift {A} (r : result A) : M A := fun w => (r, w).

Declare Scope py_scope.
Delimit Scope py_scope with py.
Notation "x <- m ;; k" := (bind m (fun x => k))
  (at level 100, m at next level, right associativity) : py_scope.
Notation "m ;; k" := (bind m (fun _ => k))
  (at level 100, right associativity) : py_scope.
Local Open Scope py_scope.

(** ** The registry API

    [register_run] stores the config under the key, replacing what was
    there; [get_run_info] and [update_run_config] raise on an unknown key;
    [list_runs] gives every key once, in the order of the registry. *)

Definition init_run : M RunConfig := ret ∅.

Definition run_keys (d : dataset) : list string :=
  map fst (map_to_list (runs d)).

Definition list_runs : M (list string) :=
  fun w => (inr (run_keys (ds w)), w).

Definition get_run_info (run_key : string) : M RunInfo :=
  fun w => match runs (ds w) !! run_key with
           | Some cfg => (inr {| config := cfg |}, w)
           | None => (inl (ValueError run_key), w)
           end.

Definition store (run_key : string) (cfg : RunConfig) (d : dataset) : dataset :=
  {| name := name d; runs := <[run_key := cfg]> (runs d) |}.

Definition register_run (run_key : string) (cfg : RunConfig) : M unit :=
  fun w => (inr tt, {| ds := store run_key cfg (ds w);
                       trace := trace w ++ [EvRegisterRun run_key] |}).

Definition update_run_config (run_key : string) (cfg : RunConfig) : M unit :=
  fun w => match runs (ds w) !! run_key with
           | Some _ => (inr tt, {| ds := store run_key cfg (ds w);
                                   trace := trace w ++ [EvUpdateRunConfig run_key] |})
           | None => (inl (ValueError run_key), w)
           end.

(** ** The plugin *)

Definition replace_char (old new c : ascii) : ascii :=
  if Ascii.eqb c old then new else c.

(** [s.replace(old, new)] for one-character [old] and [new]. *)
Fixpoint replace (old new : ascii) (s : string) : string :=
  match s with
  | EmptyString => EmptyString
  | String c s' => String (replace_char old new c) (replace old new s')
  end.

Definition _format_run_name (run_name : string) : string :=
  replace "-"%char "_"%char run_name.

(** [x or d] on an optional string: [None] and the empty string are falsy. *)
Definition truthy (x : option string) : bool :=
  match x with
  | Some (String _ _) => true
  | _ => false
  end.

Definition py_or (x : option string) (d : string) : string :=
  match x with
  | Some s => if truthy x then s else d
  | None => d
  end.

(** [o.a] on what may be [None]. *)
Definition field {A B} (o : option A) (a : string) (f : A -> B) : result B :=
  match o with
  | Some x => inr (f x)
  | None => inl (AttributeError a)
  end.

(** [d[k]] *)
Definition getitem (d : gmap string string) (k : string) : result string :=
  match d !! k with
  | Some v => inr v
  | None => inl (KeyError k)
  end.

(** [v.append(x)]: only lists have the method. *)
Definition append (v : value) (x : string) : result value :=
  match v with
  | VList l => inr (VList (l ++ [x]))
  | _ => inl (AttributeError "append")
  end.

(** [v == s] for a string literal [s]. *)
Definition eq_str (v : value) (s : string) : bool :=
  match v with
  | VStr s' => String.eqb s' s
  | _ => false
  end.

(** [try: m except: h] with a bare [except]. *)
Definition try_except {A} (m h : M A) : M A :=
  fun w => match m w with
           | (inl _, w') => h w'
           | r => r
           end.

(** [for x in l: acc = body acc x] *)
Fixpoint for_each {A B} (l : list A) (body : B -> A -> M B) (acc : B) : M B :=
  match l with
  | [] => ret acc
  | x :: l' => acc' <- body acc x ;; for_each l' body acc'
  end.

Section Plugin.

(** The [mlflow] module the plugin imports. *)
Variable mlflow : tracking.

(** What a replacement field of an f-string gives for a value that is not
    a string: the renderings of numbers and containers belong to Python. *)
Variable format_spec : value -> string.

Definition format (v : value) : string :=
  match v with
  | VStr s => s
  | _ => format_spec v
  end.

Definition mlflow_get_experiment_by_name (experiment_name : string)
  : M (option experiment) :=
  fun w => (get_experiment_by_name mlflow experiment_name,
            {| ds := ds w;
               trace := trace w ++ [EvGetExperimentByName experiment_name] |}).

Definition mlflow_get_run (run_id : string) : M run :=
  fun w => (get_run mlflow run_id,
            {| ds := ds w; trace := trace w ++ [EvGetRun run_id] |}).

(** The [dataset] argument of each function is the dataset of the state. *)
Definition _initialize_fiftyone_run_for_mlflow_experiment
    (experiment_name : string) (tracking_uri : option string) : M unit :=
  experiment <- mlflow_get_experiment_by_name experiment_name ;;
  let tracking_uri := py_or tracking_uri "http://localhost:8080" in
  cfg <- init_run ;;
  let cfg := setattr cfg "method" (VStr "mlflow_experiment") in
  a <- lift (field experiment "artifact_location" artifact_location) ;;
  let cfg := setattr cfg "artifact_location" (VStr a) in
  c <- lift (field experiment "creation_time" creation_time) ;;
  let cfg := setattr cfg "created_at" (VInt c) in
  let cfg := setattr cfg "experiment_name" (VStr experiment_name) in
  i <- lift (field experiment "experiment_id" experiment_id) ;;
  let cfg := setattr cfg "experiment_id" (VStr i) in
  let cfg := setattr cfg "tracking_uri" (VStr tracking_uri) in
  t <- lift (field experiment "tags" exp_tags) ;;
  let cfg := setattr cfg "tags" (VTags t) in
  let cfg := setattr cfg "runs" (VList []) in
  register_run experiment_name cfg.

Definition _fiftyone_experiment_run_exists (experiment_name : string) : M bool :=
  keys <- list_runs ;;
  ret (bool_decide (experiment_name ∈ keys)).

Definition _add_fiftyone_run_for_mlflow_run
    (experiment_name run_id : string) : M unit :=
  run <- mlflow_get_run run_id ;;
  run_name <- lift (getitem (tags (data run)) "mlflow.runName") ;;
  cfg <- init_run ;;
  let cfg := setattr cfg "method" (VStr "mlflow_run") in
  let cfg := setattr cfg "run_name" (VStr run_name) in
  let cfg := setattr cfg "run_id" (VStr run_id) in
  let cfg := setattr cfg "run_uuid" (VStr (run_uuid (info run))) in
  let cfg := setattr cfg "experiment_id" (VStr (info_experiment_id (info run))) in
  let cfg := setattr cfg "artifact_uri" (VStr (artifact_uri (info run))) in
  let cfg := setattr cfg "metrics" (VMetrics (metrics (data run))) in
  let cfg := setattr cfg "tags" (VTags (tags (data run))) in
  register_run (_format_run_name run_name) cfg ;;
  experiment_run_info <- get_run_info experiment_name ;;
  l <- lift (getattr (config experiment_run_info) "runs") ;;
  l' <- lift (append l run_name) ;;
  update_run_config experiment_name
    (setattr (config experiment_run_info) "runs" l').

(** The body of [log_mlflow_run_to_fiftyone_dataset], once the collection
    is resolved to its dataset. *)
Definition log_on_dataset (experiment_name : string) (run_id : option string)
  : M unit :=
  known <- _fiftyone_experiment_run_exists experiment_name ;;
  (if negb known
   then _initialize_fiftyone_run_for_mlflow_experiment experiment_name None
   else ret tt) ;;
  match run_id with
  | Some r => if truthy run_id
              then _add_fiftyone_run_for_mlflow_run experiment_name r
              else ret tt
  | None => ret tt
  end.

Definition log_mlflow_run_to_fiftyone_dataset
    (sample_collection : SampleCollection) (experiment_name : string)
    (run_id : option string) (tr : list event)
  : result unit * (SampleCollection * list event) :=
  let dataset := _dataset sample_collection in
  let '(r, w) := log_on_dataset experiment_name run_id
                   {| ds := dataset; trace := tr |} in
  (r, (with_dataset sample_collection (ds w), trace w)).

(** The list comprehension of [get_candidate_experiments]: for each key the
    test reads the run info, and a kept key reads it again. *)
Fixpoint experiment_runs (keys : list string) : M (list RunInfo) :=
  match keys with
  | [] => ret []
  | r :: keys' =>
      i <- get_run_info r ;;
      m <- lift (getattr (config i) "method") ;;
      if eq_str m "mlflow_experiment"
      then i' <- get_run_info r ;;
           rest <- experiment_runs keys' ;;
           ret (i' :: rest)
      else experiment_runs keys'
  end.

Definition link (mer : RunInfo) : M (gmap string value) :=
  let cfg := config mer in
  name <- lift (getattr cfg "experiment_name") ;;
  uri <- try_except (lift (getattr cfg "tracking_uri"))
                    (ret (VStr "http://localhost:8080")) ;;
  id <- lift (getattr cfg "experiment_id") ;;
  ret {[ "url" := VStr (format uri +:+ "/#/experiments/" +:+ format id);
         "name" := name ]}.

(** The first assignment to [name] (from [dataset.name]) is never read and
    is left out. *)
Definition get_candidate_experiments : M (gmap string (list (gmap string value))) :=
  let urls : list (gmap string value) := [] in
  keys <- list_runs ;;
  mlflow_experiment_runs <- experiment_runs keys ;;
  urls <- for_each mlflow_experiment_runs
            (fun urls mer => u <- link mer ;; ret (urls ++ [u])) urls ;;
  ret {["urls" := urls]}.

End Plugin.

(** ** Vocabulary of the statements *)

(** The config object assembled by
    [_initialize_fiftyone_run_for_mlflow_experiment]. *)
Definition experiment_config (experiment_name tracking_uri : string)
    (e : experiment) : RunConfig :=
  setattr (setattr (setattr (setattr (setattr (setattr (setattr (setattr ∅
    "method" (VStr "mlflow_experiment"))
    "artifact_location" (VStr (artifact_location e)))
    "created_at" (VInt (creation_time e)))
    "experiment_name" (VStr experiment_name))
    "experiment_id" (VStr (experiment_id e)))
    "tracking_uri" (VStr tracking_uri))
    "tags" (VTags (exp_tags e)))
    "runs" (VList []).

(** The config object assembled by [_add_fiftyone_run_for_mlflow_run]. *)
Definition run_config (run_id run_name : string) (r : run) : RunConfig :=
  setattr (setattr (setattr (setattr (setattr (setattr (setattr (setattr ∅
    "method" (VStr "mlflow_run"))
    "run_name" (VStr run_name))
    "run_id" (VStr run_id))
    "run_uuid" (VStr (run_uuid (info r))))
    "experiment_id" (VStr (info_experiment_id (info r))))
    "artifact_uri" (VStr (artifact_uri (info r))))
    "metrics" (VMetrics (metrics (data r))))
    "tags" (VTags (tags (data r))).

Definition emit (evs : list event) (d : dataset) (w : world) : world :=
  {| ds := d; trace := trace w ++ evs |}.

(** The test of the list comprehension in [get_candidate_experiments]. *)
Definition is_experiment (cfg : RunConfig) : bool :=
  match getattr cfg "method" with
  | inr m => eq_str m "mlflow_experiment"
  | inl _ => false
  end.

(** From the specification: an experiment record with the given name,
    tracking URI and experiment id, and a record of any other kind. *)
Definition experiment_record (cfg : RunConfig) (name : value) (uri id : string)
  : Prop :=
  getattr cfg "method" = inr (VStr "mlflow_experiment")
  /\ getattr cfg "experiment_name" = inr name
  /\ getattr cfg "tracking_uri" = inr (VStr uri)
  /\ getattr cfg "experiment_id" = inr (VStr id).

Definition other_record (cfg : RunConfig) : Prop :=
  exists m, getattr cfg "method" = inr m /\ m <> VStr "mlflow_experiment".

(** From the specification: the list with one link per experiment record, and
    none for any other record. *)
Inductive spec_links : list RunConfig -> list (gmap string value) -> Prop :=
| links_nil : spec_links [] []
| links_experiment cfg name uri id cfgs L :
    experiment_record cfg name uri id ->
    spec_links cfgs L ->
    spec_links (cfg :: cfgs)
      ({[ "url" := VStr (uri +:+ "/#/experiments/" +:+ id); "name" := name ]} :: L)
| links_other cfg cfgs L :
    other_record cfg ->
    spec_links cfgs L ->
    spec_links (cfg :: cfgs) L.

(** What the loop body appends for one kept record. *)
Definition links_to (format_spec : value -> string) (cfg : RunConfig)
    (u : gmap string value) : Prop :=
  exists name id,
    getattr cfg "experiment_name" = inr name
    /\ getattr cfg "experiment_id" = inr id
    /\ u = {[ "url" := VStr (format format_spec
                               (match getattr cfg "tracking_uri" with
                                | inr uri => uri
                                | inl _ => VStr "http://localhost:8080"
                                end)
                             +:+ "/#/experiments/" +:+ format format_spec id);
              "name" := name ]}.

(** The records of a registry, in the order [list_runs] gives their keys. *)
Definition records (w : world) : list RunConfig :=
  map snd (map_to_list (runs (ds w))).

(** [for run_id in run_ids: _add_fiftyone_run_for_mlflow_run(dataset,
    experiment_name, run_id)]: a caller attaching several runs in turn. *)
Definition attach_each (mlflow : tracking) (experiment_name : string)
    (run_ids : list string) : M unit :=
  for_each run_ids
    (fun _ run_id => _add_fiftyone_run_for_mlflow_run mlflow experiment_name run_id)
    tt.

(** ** Sample data *)

Module Sample.

Definition exp1 : experiment :=
  {| artifact_location := "mlflow-artifacts:/42";
     creation_time := 1700000000000;
     experiment_id := "42";
     exp_tags := {[ "team" := "vision" ]} |}.

Definition run123 : run :=
  {| info := {| run_uuid := "run123";
                info_experiment_id := "42";
                artifact_uri := "mlflow-artifacts:/42/run123/artifacts" |};
     data := {| tags := {[ "mlflow.runName" := "My-Run" ]};
                metrics := {[ "loss" := 4598175219545276416%Z ]} |} |}.

(** A run logged without a display name. *)
Definition run456 : run :=
  {| info := {| run_uuid := "run456";
                info_experiment_id := "42";
                artifact_uri := "mlflow-artifacts:/42/run456/artifacts" |};
     data := {| tags := ∅; metrics := ∅ |} |}.

Definition not_found : exn := MlflowException "RESOURCE_DOES_NOT_EXIST".

Definition service : tracking :=
  {| get_experiment_by_name n :=
       if String.eqb n "exp1" then inr (Some exp1) else inl not_found;
     get_run r :=
       if String.eqb r "run123" then inr run123
       else if String.eqb r "run456" then inr run456
       else inl not_found |}.

Definition fresh : world :=
  {| ds := {| name := "quickstart"; runs := ∅ |}; trace := [] |}.

(** The registry after [log_mlflow_run_to_fiftyone_dataset(dataset, "exp1")]. *)
Definition logged : world :=
  {| ds := store "exp1"
             (experiment_config "exp1" "http://localhost:8080" exp1) (ds fresh);
     trace := [] |}.

(** The dataset after ["run123"] has been attached to ["exp1"]. *)
Definition linked : dataset :=
  store "exp1"
    (setattr (experiment_config "exp1" "http://localhost:8080" exp1)
       "runs" (VList ["My-Run"]))
    (store "My_Run" (run_config "run123" "My-Run" run123) (ds logged)).

Definition x_record : RunConfig :=
  setattr (setattr (setattr (setattr ∅
    "method" (VStr "mlflow_experiment"))
    "experiment_name" (VStr "exp1"))
    "experiment_id" (VStr "42"))
    "tracking_uri" (VStr "http://x").

(** An experiment record written before [tracking_uri] was stored. *)
Definition old_record : RunConfig := delete "tracking_uri" x_record.

(** An experiment record whose [tracking_uri] getter raises. *)
Definition odd_record : RunConfig :=
  <["tracking_uri" := Raising (ValueError "tracking_uri")]> x_record.

Definition links_world (reg : gmap string RunConfig) : world :=
  {| ds := {| name := "quickstart"; runs := reg |}; trace := [] |}.

Definition plain (v : value) : string := "<object>".

End Sample.

(** The last three statements of [_add_fiftyone_run_for_mlflow_run]: read
    the parent record, append the raw run name to its [runs], write it
    back. *)
Definition link_to_parent (experiment_name run_name : string) : M unit :=
  experiment_run_info <- get_run_info experiment_name ;;
  l <- lift (getattr (config experiment_run_info) "runs") ;;
  l' <- lift (append l run_name) ;;
  update_run_config experiment_name
    (setattr (config experiment_run_info) "runs" l').

(** One state comes after another: every key is still there, the dataset
    has kept its name, and the trace has only been extended. *)
Definition grows (w w' : world) : Prop :=
  (forall k, is_Some (runs (ds w) !! k) -> is_Some (runs (ds w') !! k))
  /\ name (ds w') = name (ds w)
  /\ exists evs, trace w' = trace w ++ evs.

(** A record that the link query can read as far as it reads it: its
    [method], and for an experiment record its name and id. *)
Definition readable (cfg : RunConfig) : Prop :=
  exists m, getattr cfg "method" = inr m
    /\ (is_experiment cfg = true ->
        exists name id, getattr cfg "experiment_name" = inr name
                        /\ getattr cfg "experiment_id" = inr id).

(** ** Sample data for the corner cases *)

Module Corner.

(** A run whose display name is already normalised. *)
Definition run124 : run :=
  {| info := {| run_uuid := "run124";
                info_experiment_id := "42";
                artifact_uri := "mlflow-artifacts:/42/run124/artifacts" |};
     data := {| tags := {[ "mlflow.runName" := "My_Run" ]};
                metrics := {[ "loss" := 4593671619917905920%Z ]} |} |}.

(** A run named like the experiment. *)
Definition run125 : run :=
  {| info := {| run_uuid := "run125";
                info_experiment_id := "42";
                artifact_uri := "mlflow-artifacts:/42/run125/artifacts" |};
     data := {| tags := {[ "mlflow.runName" := "exp1" ]}; metrics := ∅ |} |}.

(** A client that answers [None] for the experiment "ghost". *)
Definition service : tracking :=
  {| get_experiment_by_name n :=
       if String.eqb n "exp1" then inr (Some Sample.exp1)
       else if String.eqb n "ghost" then inr None
       else inl Sample.not_found;
     get_run r :=
       if String.eqb r "run123" then inr Sample.run123
       else if String.eqb r "run124" then inr run124
       else if String.eqb r "run125" then inr run125
       else inl Sample.not_found |}.

(** A registry whose record under "exp1" is not an experiment record: it
    has no [runs]. *)
Definition foreign : world :=
  {| ds := store "exp1" (setattr ∅ "method" (VStr "evaluation")) (ds Sample.fresh);
     trace := [] |}.

(** An experiment record without [experiment_id]. *)
Definition no_id_record : RunConfig := delete "experiment_id" Sample.x_record.

End Corner.

(** * Properties *)

(** ** Name normalisation *)

Lemma replace_length old new s :
  String.length (replace old new s) = String.length s.
Proof. induction s as [|c s IH]; simpl; [reflexivity | now rewrite IH]. Qed.

Lemma replace_get old new s i :
  String.get i (replace old new s) = replace_char old new <$> String.get i s.
Proof.
  revert i; induction s as [|c s IH]; intros i; simpl; [reflexivity|].
  destruct i as [|i]; [reflexivity | apply IH].
Qed.

Lemma replace_char_idem old new c :
  new <> old ->
  replace_char old new (replace_char old new c) = replace_char old new c.
Proof.
  intros Hne. unfold replace_char.
  destruct (Ascii.eqb c old) eqn:E; [|now rewrite E].
  destruct (Ascii.eqb new old) eqn:E'; [|reflexivity].
  apply Ascii.eqb_eq in E'. contradiction.
Qed.

Lemma replace_idem old new s :
  new <> old -> replace old new (replace old new s) = replace old new s.
Proof.
  intros Hne. induction s as [|c s IH]; simpl; [reflexivity|].
  now rewrite replace_char_idem, IH.
Qed.

(** C9: [_format_run_name] keeps the length, turns each hyphen into an
    underscore and keeps every other character; applying it twice equals
    applying it once. *)
Theorem format_run_name_spec (s : string) :
  String.length (_format_run_name s) = String.length s
  /\ (forall i,
        String.get i (_format_run_name s)
        = (fun c => if Ascii.eqb c "-" then "_"%char else c) <$> String.get i s)
  /\ _format_run_name (_format_run_name s) = _format_run_name s.
Proof.
  unfold _format_run_name. split; [apply replace_length|].
  split; [intros i; apply replace_get|].
  apply replace_idem. discriminate.
Qed.

Example format_run_name_my_run : _format_run_name "My-Run" = "My_Run".
Proof. reflexivity. Qed.

(** ** The registry *)

Lemma run_keys_elem (d : dataset) (k : string) :
  k ∈ run_keys d <-> is_Some (runs d !! k).
Proof.
  unfold run_keys. rewrite list_elem_of_fmap. split.
  - intros [[k' cfg] [-> Hin]]. apply elem_of_map_to_list in Hin. simpl. eauto.
  - intros [cfg Hk]. exists (k, cfg). split; [reflexivity|].
    now apply elem_of_map_to_list.
Qed.

Lemma run_keys_NoDup (d : dataset) : NoDup (run_keys d).
Proof. apply NoDup_fst_map_to_list. Qed.

Section Mirror.

Context (mlflow : tracking).

Lemma initialize_found experiment_name tracking_uri e w :
  get_experiment_by_name mlflow experiment_name = inr (Some e) ->
  _initialize_fiftyone_run_for_mlflow_experiment mlflow
    experiment_name tracking_uri w
  = (inr tt,
     emit [EvGetExperimentByName experiment_name; EvRegisterRun experiment_name]
       (store experiment_name
          (experiment_config experiment_name
             (py_or tracking_uri "http://localhost:8080") e) (ds w)) w).
Proof.
  intros He.
  unfold _initialize_fiftyone_run_for_mlflow_experiment, bind,
    mlflow_get_experiment_by_name, register_run, emit.
  rewrite He. simpl. now rewrite <- app_assoc.
Qed.

Lemma initialize_raises experiment_name tracking_uri e w :
  get_experiment_by_name mlflow experiment_name = inl e ->
  _initialize_fiftyone_run_for_mlflow_experiment mlflow
    experiment_name tracking_uri w
  = (inl e, emit [EvGetExperimentByName experiment_name] (ds w) w).
Proof.
  intros He.
  unfold _initialize_fiftyone_run_for_mlflow_experiment, bind,
    mlflow_get_experiment_by_name, emit.
  now rewrite He.
Qed.

Lemma initialize_none experiment_name tracking_uri w :
  get_experiment_by_name mlflow experiment_name = inr None ->
  _initialize_fiftyone_run_for_mlflow_experiment mlflow
    experiment_name tracking_uri w
  = (inl (AttributeError "artifact_location"),
     emit [EvGetExperimentByName experiment_name] (ds w) w).
Proof.
  intros He.
  unfold _initialize_fiftyone_run_for_mlflow_experiment, bind,
    mlflow_get_experiment_by_name, emit.
  now rewrite He.
Qed.

Lemma exists_spec experiment_name w :
  _fiftyone_experiment_run_exists experiment_name w
  = (inr (bool_decide (is_Some (runs (ds w) !! experiment_name))), w).
Proof.
  unfold _fiftyone_experiment_run_exists, bind, list_runs, ret.
  do 2 f_equal. apply bool_decide_ext, run_keys_elem.
Qed.

Lemma add_run_raises experiment_name run_id e w :
  get_run mlflow run_id = inl e ->
  _add_fiftyone_run_for_mlflow_run mlflow experiment_name run_id w
  = (inl e, emit [EvGetRun run_id] (ds w) w).
Proof.
  intros Hr. unfold _add_fiftyone_run_for_mlflow_run, bind, mlflow_get_run, emit.
  now rewrite Hr.
Qed.

Lemma add_run_no_name experiment_name run_id r w :
  get_run mlflow run_id = inr r ->
  tags (data r) !! "mlflow.runName" = None ->
  _add_fiftyone_run_for_mlflow_run mlflow experiment_name run_id w
  = (inl (KeyError "mlflow.runName"), emit [EvGetRun run_id] (ds w) w).
Proof.
  intros Hr Ht.
  unfold _add_fiftyone_run_for_mlflow_run, bind, mlflow_get_run, emit,
    lift, getitem.
  now rewrite Hr, Ht.
Qed.

(** Up to the first registry write, a known and named run always gets its
    record stored; what follows depends on the parent record. *)
Lemma add_run_registered experiment_name run_id r run_name w :
  get_run mlflow run_id = inr r ->
  tags (data r) !! "mlflow.runName" = Some run_name ->
  _add_fiftyone_run_for_mlflow_run mlflow experiment_name run_id w
  = (experiment_run_info <- get_run_info experiment_name ;;
     l <- lift (getattr (config experiment_run_info) "runs") ;;
     l' <- lift (append l run_name) ;;
     update_run_config experiment_name
       (setattr (config experiment_run_info) "runs" l'))
      (emit [EvGetRun run_id; EvRegisterRun (_format_run_name run_name)]
         (store (_format_run_name run_name)
            (run_config run_id run_name r) (ds w)) w).
Proof.
  intros Hr Ht.
  unfold _add_fiftyone_run_for_mlflow_run at 1.
  unfold bind at 1. unfold mlflow_get_run at 1. rewrite Hr.
  unfold bind at 1. unfold lift at 1, getitem. rewrite Ht.
  unfold bind at 1. unfold init_run, ret.
  unfold bind at 1. unfold register_run at 1. simpl ds. simpl trace.
  unfold emit. now rewrite <- app_assoc.
Qed.


Lemma add_run_linked experiment_name run_id r run_name cfg l w :
  get_run mlflow run_id = inr r ->
  tags (data r) !! "mlflow.runName" = Some run_name ->
  _format_run_name run_name <> experiment_name ->
  runs (ds w) !! experiment_name = Some cfg ->
  getattr cfg "runs" = inr (VList l) ->
  _add_fiftyone_run_for_mlflow_run mlflow experiment_name run_id w
  = (inr tt,
     emit [EvGetRun run_id; EvRegisterRun (_format_run_name run_name);
           EvUpdateRunConfig experiment_name]
       (store experiment_name (setattr cfg "runs" (VList (l ++ [run_name])))
          (store (_format_run_name run_name)
             (run_config run_id run_name r) (ds w))) w).
Proof.
  intros Hr Ht Hne Hcfg Hl.
  rewrite (add_run_registered _ _ _ _ _ Hr Ht).
  unfold bind, get_run_info, update_run_config, lift, emit. simpl.
  rewrite lookup_insert_ne by exact Hne. rewrite Hcfg. simpl.
  rewrite Hl. simpl.
  rewrite lookup_insert_ne by exact Hne. rewrite Hcfg.
  now rewrite <- app_assoc.
Qed.

Lemma add_run_orphan experiment_name run_id r run_name w :
  get_run mlflow run_id = inr r ->
  tags (data r) !! "mlflow.runName" = Some run_name ->
  runs (ds w) !! experiment_name = None ->
  _add_fiftyone_run_for_mlflow_run mlflow experiment_name run_id w
  = (inl (if decide (_format_run_name run_name = experiment_name)
          then AttributeError "runs" else ValueError experiment_name),
     emit [EvGetRun run_id; EvRegisterRun (_format_run_name run_name)]
       (store (_format_run_name run_name)
          (run_config run_id run_name r) (ds w)) w).
Proof.
  intros Hr Ht Hnone.
  rewrite (add_run_registered _ _ _ _ _ Hr Ht).
  unfold bind, get_run_info, lift, emit. simpl.
  destruct (decide (_format_run_name run_name = experiment_name)) as [->|Hne].
  - now rewrite lookup_insert_eq.
  - rewrite lookup_insert_ne by exact Hne. now rewrite Hnone.
Qed.

(** [log_on_dataset] is the guarded initialisation followed by the guarded
    attach. *)
Lemma log_known experiment_name run_id w :
  is_Some (runs (ds w) !! experiment_name) ->
  log_on_dataset mlflow experiment_name run_id w
  = match run_id with
    | Some r => if truthy run_id
                then _add_fiftyone_run_for_mlflow_run mlflow experiment_name r w
                else (inr tt, w)
    | None => (inr tt, w)
    end.
Proof.
  intros Hk. unfold log_on_dataset. unfold bind at 1.
  rewrite exists_spec. rewrite bool_decide_eq_true_2 by exact Hk.
  unfold bind, ret. simpl. destruct run_id as [r|]; [|reflexivity].
  now destruct (truthy (Some r)).
Qed.

Lemma log_unknown experiment_name run_id w :
  runs (ds w) !! experiment_name = None ->
  log_on_dataset mlflow experiment_name run_id w
  = match _initialize_fiftyone_run_for_mlflow_experiment mlflow
            experiment_name None w with
    | (inr _, w') =>
        match run_id with
        | Some r => if truthy run_id
                    then _add_fiftyone_run_for_mlflow_run mlflow experiment_name r w'
                    else (inr tt, w')
        | None => (inr tt, w')
        end
    | (inl e, w') => (inl e, w')
    end.
Proof.
  intros Hk. unfold log_on_dataset. unfold bind at 1.
  rewrite exists_spec. rewrite bool_decide_eq_false_2
    by (rewrite Hk; apply is_Some_None).
  unfold bind, ret. simpl.
  destruct (_initialize_fiftyone_run_for_mlflow_experiment _ _ _ _)
    as [[e|[]] w']; [reflexivity|].
  destruct run_id as [r|]; [|reflexivity].
  now destruct (truthy (Some r)).
Qed.

Lemma initialize_inv experiment_name tracking_uri w w' :
  _initialize_fiftyone_run_for_mlflow_experiment mlflow
    experiment_name tracking_uri w = (inr tt, w') ->
  exists e,
    get_experiment_by_name mlflow experiment_name = inr (Some e)
    /\ w' = emit [EvGetExperimentByName experiment_name;
                  EvRegisterRun experiment_name]
              (store experiment_name
                 (experiment_config experiment_name
                    (py_or tracking_uri "http://localhost:8080") e) (ds w)) w.
Proof.
  destruct (get_experiment_by_name mlflow experiment_name) as [x|[e|]] eqn:He.
  - rewrite (initialize_raises _ _ _ _ He). discriminate.
  - rewrite (initialize_found _ _ _ _ He). intros [= <-]. now exists e.
  - rewrite (initialize_none _ _ _ He). discriminate.
Qed.

Lemma add_run_inv experiment_name run_id w w' :
  _add_fiftyone_run_for_mlflow_run mlflow experiment_name run_id w = (inr tt, w') ->
  exists r run_name cfg l,
    get_run mlflow run_id = inr r
    /\ tags (data r) !! "mlflow.runName" = Some run_name
    /\ _format_run_name run_name <> experiment_name
    /\ runs (ds w) !! experiment_name = Some cfg
    /\ getattr cfg "runs" = inr (VList l)
    /\ w' = emit [EvGetRun run_id; EvRegisterRun (_format_run_name run_name);
                  EvUpdateRunConfig experiment_name]
              (store experiment_name (setattr cfg "runs" (VList (l ++ [run_name])))
                 (store (_format_run_name run_name)
                    (run_config run_id run_name r) (ds w))) w.
Proof.
  destruct (get_run mlflow run_id) as [x|r] eqn:Hr.
  { rewrite (add_run_raises _ _ _ _ Hr). discriminate. }
  destruct (tags (data r) !! "mlflow.runName") as [run_name|] eqn:Ht.
  2:{ rewrite (add_run_no_name _ _ _ _ Hr Ht). discriminate. }
  destruct (runs (ds w) !! experiment_name) as [cfg|] eqn:Hcfg.
  2:{ rewrite (add_run_orphan _ _ _ _ _ Hr Ht Hcfg). discriminate. }
  destruct (decide (_format_run_name run_name = experiment_name)) as [Heq|Hne].
  { rewrite (add_run_registered _ _ _ _ _ Hr Ht).
    unfold bind, get_run_info, lift, emit. simpl.
    rewrite Heq, lookup_insert_eq. simpl. discriminate. }
  destruct (getattr cfg "runs") as [x|v] eqn:Hl.
  { rewrite (add_run_registered _ _ _ _ _ Hr Ht).
    unfold bind, get_run_info, lift, emit. simpl.
    rewrite lookup_insert_ne by exact Hne. rewrite Hcfg. simpl.
    rewrite Hl. discriminate. }
  destruct v as [s|n|l|d|d];
    try (rewrite (add_run_registered _ _ _ _ _ Hr Ht);
         unfold bind, get_run_info, lift, emit; simpl;
         rewrite lookup_insert_ne by exact Hne; rewrite Hcfg; simpl;
         rewrite Hl; discriminate).
  rewrite (add_run_linked _ _ _ _ _ _ _ Hr Ht Hne Hcfg Hl).
  intros [= <-]. now exists r, run_name, cfg, l.
Qed.

(** What [log_on_dataset] has done when it returns normally. *)
Lemma log_inv experiment_name run_id w w' :
  log_on_dataset mlflow experiment_name run_id w = (inr tt, w') ->
  exists w1,
    ((is_Some (runs (ds w) !! experiment_name) /\ w1 = w)
     \/ (runs (ds w) !! experiment_name = None
         /\ exists e,
              get_experiment_by_name mlflow experiment_name = inr (Some e)
              /\ w1 = emit [EvGetExperimentByName experiment_name;
                            EvRegisterRun experiment_name]
                        (store experiment_name
                           (experiment_config experiment_name
                              "http://localhost:8080" e) (ds w)) w))
    /\ is_Some (runs (ds w1) !! experiment_name)
    /\ (if truthy run_id
        then exists r, run_id = Some r
                       /\ _add_fiftyone_run_for_mlflow_run mlflow
                            experiment_name r w1 = (inr tt, w')
        else w' = w1).
Proof.
  assert (Hcont : forall w1,
    match run_id with
    | Some r => if truthy run_id
                then _add_fiftyone_run_for_mlflow_run mlflow experiment_name r w1
                else (inr tt, w1)
    | None => (inr tt, w1)
    end = (inr tt, w') ->
    if truthy run_id
    then exists r, run_id = Some r
                   /\ _add_fiftyone_run_for_mlflow_run mlflow
                        experiment_name r w1 = (inr tt, w')
    else w' = w1).
  { intros w1. destruct run_id as [r|]; simpl.
    - destruct r; [now intros [= <-]|]. intros H. eauto.
    - now intros [= <-]. }
  destruct (runs (ds w) !! experiment_name) as [cfg|] eqn:Hk.
  - rewrite log_known by (rewrite Hk; eauto). intros H.
    exists w. split; [left; split; eauto|].
    split; [rewrite Hk; eauto|]. now apply Hcont.
  - rewrite log_unknown by exact Hk.
    destruct (_initialize_fiftyone_run_for_mlflow_experiment _ _ _ _)
      as [[x|[]] w1] eqn:Hinit; [discriminate|].
    apply initialize_inv in Hinit. destruct Hinit as (e & He & ->).
    intros H. eexists. split; [right; split; [reflexivity|]; eauto|].
    split; [simpl; rewrite lookup_insert_eq; eauto|]. now apply Hcont.
Qed.

(** Without a run id the call does the guarded initialisation and nothing
    else, whether or not it returns normally. *)
Lemma log_no_run_id experiment_name run_id w :
  truthy run_id = false ->
  exists r w' ens,
    log_on_dataset mlflow experiment_name run_id w = (r, w')
    /\ trace w' = trace w ++ ens
    /\ Forall (fun ev => ev = EvGetExperimentByName experiment_name
                         \/ ev = EvRegisterRun experiment_name) ens.
Proof.
  intros Hf.
  assert (Hskip : forall w1,
    match run_id with
    | Some r => if truthy run_id
                then _add_fiftyone_run_for_mlflow_run mlflow experiment_name r w1
                else (inr tt, w1)
    | None => (inr tt, w1)
    end = (inr tt, w1)).
  { intros w1. destruct run_id as [r|]; [|reflexivity]. now rewrite Hf. }
  destruct (runs (ds w) !! experiment_name) as [cfg|] eqn:Hk.
  - rewrite log_known by (rewrite Hk; eauto). rewrite Hskip.
    exists (inr tt), w, []. rewrite app_nil_r. now repeat split.
  - rewrite log_unknown by exact Hk.
    destruct (get_experiment_by_name mlflow experiment_name) as [x|[e|]] eqn:He.
    + rewrite (initialize_raises _ _ _ _ He).
      do 3 eexists. split; [reflexivity|]. split; [reflexivity|].
      constructor; [now left|]. constructor.
    + rewrite (initialize_found _ _ _ _ He), Hskip.
      do 3 eexists. split; [reflexivity|]. split; [reflexivity|].
      constructor; [now left|]. constructor; [now right|]. constructor.
    + rewrite (initialize_none _ _ _ He).
      do 3 eexists. split; [reflexivity|]. split; [reflexivity|].
      constructor; [now left|]. constructor.
Qed.

End Mirror.



(** ** The experiment link query *)

Lemma is_experiment_method cfg m :
  getattr cfg "method" = inr m -> is_experiment cfg = eq_str m "mlflow_experiment".
Proof. intros H. unfold is_experiment. now rewrite H. Qed.

Lemma eq_str_true v s : eq_str v s = true <-> v = VStr s.
Proof.
  destruct v; simpl; try (split; [discriminate | intros; discriminate]).
  rewrite String.eqb_eq. split; congruence.
Qed.

(** The comprehension keeps, in order, the records that pass the test. *)
Lemma experiment_runs_spec (kvs : list (string * RunConfig)) (w : world) :
  (forall k cfg, (k, cfg) ∈ kvs ->
     runs (ds w) !! k = Some cfg /\ exists m, getattr cfg "method" = inr m) ->
  experiment_runs (map fst kvs) w
  = (inr (map (fun cfg => {| config := cfg |})
            (List.filter is_experiment (map snd kvs))), w).
Proof.
  induction kvs as [|[k cfg] kvs IH]; intros Hall; [reflexivity|].
  destruct (Hall k cfg) as [Hk [m Hm]]; [left|].
  assert (IH' := IH (fun k' cfg' Hin => Hall k' cfg' (list_elem_of_further _ _ _ Hin))).
  simpl. unfold bind at 1. unfold get_run_info at 1. rewrite Hk.
  unfold bind at 1. unfold lift at 1. simpl config. rewrite Hm.
  rewrite (is_experiment_method _ _ Hm).
  destruct (eq_str m "mlflow_experiment").
  - unfold bind, get_run_info, ret. rewrite Hk.
    unfold bind, ret in IH'. now rewrite IH'.
  - exact IH'.
Qed.

Section Links.

Context (format_spec : value -> string).

Lemma link_spec cfg name id w :
  getattr cfg "experiment_name" = inr name ->
  getattr cfg "experiment_id" = inr id ->
  exists u, link format_spec {| config := cfg |} w = (inr u, w)
            /\ links_to format_spec cfg u.
Proof.
  intros Hn Hi. unfold links_to, link, bind, lift, try_except, ret.
  simpl config. rewrite Hn, Hi.
  destruct (getattr cfg "tracking_uri") as [e|uri];
    eexists; (split; [reflexivity|]); exists name, id; now repeat split.
Qed.

Lemma for_each_links cfgs acc w :
  Forall (fun cfg => exists name id,
            getattr cfg "experiment_name" = inr name
            /\ getattr cfg "experiment_id" = inr id) cfgs ->
  exists L,
    for_each (map (fun cfg => {| config := cfg |}) cfgs)
      (fun urls mer => u <- link format_spec mer ;; ret (urls ++ [u])) acc w
    = (inr (acc ++ L), w)
    /\ Forall2 (links_to format_spec) cfgs L.
Proof.
  intros Hall. revert acc.
  induction Hall as [|cfg cfgs (name & id & Hn & Hi) _ IH]; intros acc.
  - exists []. split; [|constructor]. simpl. unfold ret. now rewrite app_nil_r.
  - destruct (link_spec cfg name id w Hn Hi) as (u & Hu & Hlu).
    destruct (IH (acc ++ [u])) as (L & HL & HF).
    exists (u :: L). split; [|now constructor].
    simpl. unfold bind at 1. unfold bind at 1. rewrite Hu. unfold ret at 1.
    rewrite HL. now rewrite <- app_assoc.
Qed.

Lemma registry_pairs (w : world) k cfg :
  (k, cfg) ∈ map_to_list (runs (ds w)) -> runs (ds w) !! k = Some cfg.
Proof. apply elem_of_map_to_list. Qed.

Lemma records_elem (w : world) cfg :
  cfg ∈ records w -> exists k, runs (ds w) !! k = Some cfg.
Proof.
  unfold records. rewrite list_elem_of_fmap.
  intros [[k c] [-> Hin]]. exists k. now apply registry_pairs.
Qed.

(** The whole query, for a registry whose records can be read as far as the
    query reads them: it returns one link per record that passes the test. *)
Lemma candidates_spec (w : world) :
  (forall cfg, cfg ∈ records w ->
     exists m, getattr cfg "method" = inr m
       /\ (is_experiment cfg = true ->
           exists name id, getattr cfg "experiment_name" = inr name
                           /\ getattr cfg "experiment_id" = inr id)) ->
  exists L,
    get_candidate_experiments format_spec w = (inr {[ "urls" := L ]}, w)
    /\ Forall2 (links_to format_spec) (List.filter is_experiment (records w)) L.
Proof.
  intros Hall.
  destruct (for_each_links (List.filter is_experiment (records w)) [] w)
    as (L & HL & HF).
  { apply Forall_forall. intros cfg Hin.
    apply list_elem_of_In, filter_In in Hin. destruct Hin as [Hin Hexp].
    apply list_elem_of_In in Hin.
    destruct (Hall cfg Hin) as (m & _ & Hfields). now apply Hfields. }
  exists L. split; [|exact HF].
  unfold get_candidate_experiments. unfold bind at 1. unfold list_runs at 1.
  unfold run_keys. unfold bind at 1. rewrite experiment_runs_spec.
  - fold (records w). unfold bind at 1. rewrite HL. reflexivity.
  - intros k cfg Hin. split; [now apply registry_pairs|].
    destruct (Hall cfg) as (m & Hm & _); [|now exists m].
    unfold records. apply list_elem_of_fmap. now exists (k, cfg).
Qed.

End Links.

(** ** The mirror: creating and attaching records *)

Lemma dataset_with_dataset sc d : _dataset (with_dataset sc d) = d.
Proof. now destruct sc. Qed.

Section Claims.

Context (mlflow : tracking).

(** C5 (amended): when the tracking client raises for the experiment name,
    or for the run id, or the fetched run has no "mlflow.runName" tag, the
    operation ends with that very exception (a [KeyError] for the tag); when
    the client answers [None] for the experiment name, the operation ends
    with the [AttributeError] of the plugin's own read of
    [artifact_location].  In all four cases the dataset is as before: the
    only call made is the failed fetch, and no registry write happens. *)
Theorem tracking_failures_write_nothing :
  (forall experiment_name tracking_uri w e,
     get_experiment_by_name mlflow experiment_name = inl e ->
     exists w',
       _initialize_fiftyone_run_for_mlflow_experiment mlflow
         experiment_name tracking_uri w = (inl e, w')
       /\ ds w' = ds w
       /\ trace w' = trace w ++ [EvGetExperimentByName experiment_name])
  /\ (forall experiment_name tracking_uri w,
        get_experiment_by_name mlflow experiment_name = inr None ->
        exists w',
          _initialize_fiftyone_run_for_mlflow_experiment mlflow
            experiment_name tracking_uri w
          = (inl (AttributeError "artifact_location"), w')
          /\ ds w' = ds w
          /\ trace w' = trace w ++ [EvGetExperimentByName experiment_name])
  /\ (forall experiment_name run_id w e,
        get_run mlflow run_id = inl e ->
        exists w',
          _add_fiftyone_run_for_mlflow_run mlflow experiment_name run_id w
          = (inl e, w')
          /\ ds w' = ds w
          /\ trace w' = trace w ++ [EvGetRun run_id])
  /\ (forall experiment_name run_id w r,
        get_run mlflow run_id = inr r ->
        tags (data r) !! "mlflow.runName" = None ->
        exists w',
          _add_fiftyone_run_for_mlflow_run mlflow experiment_name run_id w
          = (inl (KeyError "mlflow.runName"), w')
          /\ ds w' = ds w
          /\ trace w' = trace w ++ [EvGetRun run_id]).
Proof.
  split; [|split; [|split]].
  - intros E uri w e He. eexists. split; [now apply initialize_raises|].
    now split.
  - intros E uri w He. eexists. split; [now apply initialize_none|].
    now split.
  - intros E rid w e Hr. eexists. split; [now apply add_run_raises|].
    now split.
  - intros E rid w r Hr Ht. eexists.
    split; [now apply (add_run_no_name _ _ _ r)|].
    now split.
Qed.

(** C10: when the run is known and named but the registry has no record
    under [experiment_name], attaching raises, and the run record written
    before the parent lookup stays in the registry.  The exception is the
    lookup's [ValueError], unless the normalised run name is
    [experiment_name] itself: then the lookup finds the run record just
    written and reading its [runs] raises. *)
Theorem attach_without_parent_keeps_run_record
    experiment_name run_id r run_name w :
  get_run mlflow run_id = inr r ->
  tags (data r) !! "mlflow.runName" = Some run_name ->
  runs (ds w) !! experiment_name = None ->
  exists e w',
    _add_fiftyone_run_for_mlflow_run mlflow experiment_name run_id w = (inl e, w')
    /\ e = (if decide (_format_run_name run_name = experiment_name)
            then AttributeError "runs" else ValueError experiment_name)
    /\ runs (ds w') = <[_format_run_name run_name := run_config run_id run_name r]>
                        (runs (ds w))
    /\ runs (ds w') !! _format_run_name run_name
       = Some (run_config run_id run_name r)
    /\ (runs (ds w) !! _format_run_name run_name
        <> Some (run_config run_id run_name r) -> ds w' <> ds w)
    /\ trace w' = trace w ++ [EvGetRun run_id;
                              EvRegisterRun (_format_run_name run_name)].
Proof.
  intros Hr Ht Hnone. do 2 eexists.
  split; [eapply add_run_orphan; eassumption|]. split; [reflexivity|].
  split; [reflexivity|]. simpl.
  split; [apply lookup_insert_eq|]. split; [|reflexivity].
  intros Hold Heq. apply Hold. rewrite <- Heq. simpl. apply lookup_insert_eq.
Qed.

(** C2 (amended): for an experiment name not yet in the registry and known
    to the tracking service, the initialisation followed by a lookup of the
    name yields a record with method "mlflow_experiment", an empty [runs],
    the service's artifact location, creation time, experiment id and tags,
    the experiment name, and as tracking URI the supplied value when it is
    supplied and non-empty, "http://localhost:8080" otherwise. *)
Theorem initialize_writes_experiment_record experiment_name tracking_uri e w :
  runs (ds w) !! experiment_name = None ->
  get_experiment_by_name mlflow experiment_name = inr (Some e) ->
  exists w' cfg,
    _initialize_fiftyone_run_for_mlflow_experiment mlflow
      experiment_name tracking_uri w = (inr tt, w')
    /\ get_run_info experiment_name w' = (inr {| config := cfg |}, w')
    /\ getattr cfg "method" = inr (VStr "mlflow_experiment")
    /\ getattr cfg "runs" = inr (VList [])
    /\ getattr cfg "artifact_location" = inr (VStr (artifact_location e))
    /\ getattr cfg "created_at" = inr (VInt (creation_time e))
    /\ getattr cfg "experiment_id" = inr (VStr (experiment_id e))
    /\ getattr cfg "tags" = inr (VTags (exp_tags e))
    /\ getattr cfg "experiment_name" = inr (VStr experiment_name)
    /\ getattr cfg "tracking_uri"
       = inr (VStr match tracking_uri with
                   | Some (String c s) => String c s
                   | Some EmptyString | None => "http://localhost:8080"
                   end).
Proof.
  intros _ He. do 2 eexists.
  split; [eapply initialize_found; eassumption|].
  split. { unfold get_run_info, emit, store. simpl. now rewrite lookup_insert_eq. }
  repeat (split; [reflexivity|]).
  now destruct tracking_uri as [[|c s]|].
Qed.

(** C1: on a dataset that already holds a record for "exp1" with a [runs]
    list, logging run "run123", whose display name is "My-Run", succeeds;
    afterwards the registry holds under "My_Run" a record with method
    "mlflow_run" and the run's name, id, uuid, experiment id, artifact URI,
    metrics and tags, and the [runs] of "exp1" is the former list followed
    by the raw name "My-Run". *)
Theorem log_run_my_run sample_collection tr cfg l r :
  runs (_dataset sample_collection) !! "exp1" = Some cfg ->
  getattr cfg "runs" = inr (VList l) ->
  get_run mlflow "run123" = inr r ->
  tags (data r) !! "mlflow.runName" = Some "My-Run" ->
  exists sc' tr' rec cfg',
    log_mlflow_run_to_fiftyone_dataset mlflow sample_collection
      "exp1" (Some "run123") tr = (inr tt, (sc', tr'))
    /\ runs (_dataset sc') !! "My_Run" = Some rec
    /\ getattr rec "method" = inr (VStr "mlflow_run")
    /\ getattr rec "run_name" = inr (VStr "My-Run")
    /\ getattr rec "run_id" = inr (VStr "run123")
    /\ getattr rec "run_uuid" = inr (VStr (run_uuid (info r)))
    /\ getattr rec "experiment_id" = inr (VStr (info_experiment_id (info r)))
    /\ getattr rec "artifact_uri" = inr (VStr (artifact_uri (info r)))
    /\ getattr rec "metrics" = inr (VMetrics (metrics (data r)))
    /\ getattr rec "tags" = inr (VTags (tags (data r)))
    /\ runs (_dataset sc') !! "exp1" = Some cfg'
    /\ getattr cfg' "runs" = inr (VList (l ++ ["My-Run"]))
    /\ "My-Run" ∈ l ++ ["My-Run"].
Proof.
  intros Hcfg Hl Hr Ht.
  assert (Hne : _format_run_name "My-Run" <> "exp1") by discriminate.
  unfold log_mlflow_run_to_fiftyone_dataset.
  rewrite log_known by (simpl; rewrite Hcfg; eauto). simpl truthy. cbv iota.
  rewrite (add_run_linked mlflow "exp1" "run123" r "My-Run" cfg l
             {| ds := _dataset sample_collection; trace := tr |} Hr Ht Hne Hcfg Hl).
  do 4 eexists. split; [reflexivity|].
  rewrite dataset_with_dataset. simpl.
  split. { rewrite lookup_insert_ne by discriminate. apply lookup_insert_eq. }
  repeat (split; [reflexivity|]).
  split; [apply lookup_insert_eq|].
  split; [unfold getattr, setattr; now rewrite lookup_insert_eq|].
  apply elem_of_app. right. left.
Qed.

(** C3: when the registry already has the experiment name, a call without
    a run id is a no-op: it returns with collection and trace untouched, so
    with no tracking-service call and no registry write.  Hence, once one
    such call has returned, a second one changes nothing, and [list_runs]
    holds the experiment name exactly once. *)
Theorem ensure_twice_is_once sample_collection experiment_name tr :
  (forall run_id,
     is_Some (runs (_dataset sample_collection) !! experiment_name) ->
     truthy run_id = false ->
     log_mlflow_run_to_fiftyone_dataset mlflow sample_collection
       experiment_name run_id tr = (inr tt, (sample_collection, tr)))
  /\ (forall run_id run_id' sc1 tr1,
        truthy run_id = false ->
        truthy run_id' = false ->
        log_mlflow_run_to_fiftyone_dataset mlflow sample_collection
          experiment_name run_id tr = (inr tt, (sc1, tr1)) ->
        log_mlflow_run_to_fiftyone_dataset mlflow sc1 experiment_name run_id' tr1
        = (inr tt, (sc1, tr1))
        /\ count_occ string_dec (run_keys (_dataset sc1)) experiment_name = 1).
Proof.
  assert (Hnoop : forall sc run_id t,
     is_Some (runs (_dataset sc) !! experiment_name) ->
     truthy run_id = false ->
     log_mlflow_run_to_fiftyone_dataset mlflow sc experiment_name run_id t
     = (inr tt, (sc, t))).
  { intros sc run_id t Hsome Hf. unfold log_mlflow_run_to_fiftyone_dataset.
    rewrite log_known by exact Hsome.
    assert (Hret : match run_id with
                   | Some r => if truthy run_id
                               then _add_fiftyone_run_for_mlflow_run mlflow
                                      experiment_name r
                                      {| ds := _dataset sc; trace := t |}
                               else (inr tt, {| ds := _dataset sc; trace := t |})
                   | None => (inr tt, {| ds := _dataset sc; trace := t |})
                   end = (inr tt, {| ds := _dataset sc; trace := t |})).
    { destruct run_id as [r|]; [|reflexivity]. now rewrite Hf. }
    rewrite Hret. simpl. now destruct sc. }
  split; [intros run_id; apply Hnoop|].
  intros run_id run_id' sc1 tr1 Hf Hf'.
  unfold log_mlflow_run_to_fiftyone_dataset at 1.
  destruct (log_on_dataset _ _ _ _) as [x w1] eqn:Hlog.
  intros [= -> <- <-]. apply log_inv in Hlog.
  destruct Hlog as (w1' & _ & Hsome & Hrest).
  rewrite Hf in Hrest. subst w1'.
  split.
  - apply Hnoop; [|exact Hf']. now rewrite dataset_with_dataset.
  - rewrite dataset_with_dataset.
    apply (proj1 (NoDup_count_occ' string_dec _)
             (proj1 (NoDup_ListNoDup _) (run_keys_NoDup (ds w1)))).
    apply list_elem_of_In, run_keys_elem, Hsome.
Qed.

(** C7: a call that returns has first made sure of the experiment record
    (nothing to do when the key is there; otherwise one experiment fetch and
    one write under the experiment name), so the key is in the registry of
    the underlying dataset afterwards; then, exactly when [run_id] is
    supplied and non-empty, it has fetched the run, written its record under
    the normalised name and appended the raw name to the experiment's
    [runs].  With no or an empty [run_id] no call, returning or raising,
    fetches a run or writes a run record: all it can do is fetch the
    experiment and write under the experiment name. *)
Theorem log_run_ensures_then_attaches
    sample_collection experiment_name run_id tr :
  (truthy run_id = false ->
   exists r sc' ens,
     log_mlflow_run_to_fiftyone_dataset mlflow sample_collection
       experiment_name run_id tr = (r, (sc', tr ++ ens))
     /\ Forall (fun ev => ev = EvGetExperimentByName experiment_name
                          \/ ev = EvRegisterRun experiment_name) ens)
  /\
  forall sc' tr',
  log_mlflow_run_to_fiftyone_dataset mlflow sample_collection
    experiment_name run_id tr = (inr tt, (sc', tr')) ->
  exists d1 ens,
    ((is_Some (runs (_dataset sample_collection) !! experiment_name)
      /\ d1 = _dataset sample_collection /\ ens = [])
     \/ (runs (_dataset sample_collection) !! experiment_name = None
         /\ exists e,
              get_experiment_by_name mlflow experiment_name = inr (Some e)
              /\ d1 = store experiment_name
                        (experiment_config experiment_name
                           "http://localhost:8080" e)
                        (_dataset sample_collection)
              /\ ens = [EvGetExperimentByName experiment_name;
                        EvRegisterRun experiment_name]))
    /\ sc' = with_dataset sample_collection (_dataset sc')
    /\ is_Some (runs (_dataset sc') !! experiment_name)
    /\ (if truthy run_id
        then exists id r run_name cfg l,
               run_id = Some id
               /\ get_run mlflow id = inr r
               /\ tags (data r) !! "mlflow.runName" = Some run_name
               /\ runs d1 !! experiment_name = Some cfg
               /\ getattr cfg "runs" = inr (VList l)
               /\ _dataset sc'
                  = store experiment_name
                      (setattr cfg "runs" (VList (l ++ [run_name])))
                      (store (_format_run_name run_name)
                         (run_config id run_name r) d1)
               /\ runs (_dataset sc') !! _format_run_name run_name
                  = Some (run_config id run_name r)
               /\ tr' = tr ++ ens ++ [EvGetRun id;
                                      EvRegisterRun (_format_run_name run_name);
                                      EvUpdateRunConfig experiment_name]
        else _dataset sc' = d1 /\ tr' = tr ++ ens).
Proof.
  split.
  { intros Hf. unfold log_mlflow_run_to_fiftyone_dataset.
    destruct (log_no_run_id mlflow experiment_name run_id
                {| ds := _dataset sample_collection; trace := tr |} Hf)
      as (r & w' & ens & Hrun & Htr & Hens).
    rewrite Hrun. simpl in Htr. rewrite Htr. eauto. }
  intros sc' tr'. unfold log_mlflow_run_to_fiftyone_dataset.
  destruct (log_on_dataset _ _ _ _) as [x w'] eqn:Hlog.
  intros [= -> <- <-]. apply log_inv in Hlog.
  destruct Hlog as (w1 & Hens & Hsome & Hrest).
  exists (ds w1), (drop (length tr) (trace w1)).
  assert (Htr : trace w1 = tr ++ drop (length tr) (trace w1)).
  { destruct Hens as [[_ ->]|(_ & e & _ & ->)]; simpl.
    - now rewrite drop_all, app_nil_r.
    - now rewrite drop_app_length. }
  split.
  { destruct Hens as [[Hk ->]|(Hk & e & He & ->)]; simpl.
    - left. rewrite drop_all. now repeat split.
    - right. split; [exact Hk|]. exists e. rewrite drop_app_length.
      now repeat split. }
  rewrite !dataset_with_dataset.
  split; [now destruct sample_collection|].
  destruct (truthy run_id).
  - destruct Hrest as (id & -> & Hadd). apply add_run_inv in Hadd.
    destruct Hadd as (r & run_name & cfg & l & Hr & Ht & Hne & Hcfg & Hl & ->).
    simpl. split; [rewrite lookup_insert_eq; eauto|].
    exists id, r, run_name, cfg, l.
    repeat (split; [assumption || reflexivity|]).
    split.
    + rewrite lookup_insert_ne by (intros Heq; now apply Hne).
      apply lookup_insert_eq.
    + rewrite Htr at 1. now rewrite <- app_assoc.
  - subst w'. split; [exact Hsome|]. now split.
Qed.

(** C4 (amended): starting from an experiment record whose [runs] is [l],
    attaching in turn runs that the service knows, each with a display name
    whose normalised form is not the experiment name, succeeds and leaves
    [runs] equal to [l] followed by the display names of the attached runs,
    in order and one entry per attach: a name is in [runs] exactly when it
    was in [l] or is the name of an attached run, and a run attached twice
    is listed twice. *)
Theorem attach_appends_each_time experiment_name run_ids names cfg l w :
  runs (ds w) !! experiment_name = Some cfg ->
  getattr cfg "runs" = inr (VList l) ->
  Forall2 (fun run_id run_name =>
             exists r, get_run mlflow run_id = inr r
                       /\ tags (data r) !! "mlflow.runName" = Some run_name
                       /\ _format_run_name run_name <> experiment_name)
          run_ids names ->
  exists w' cfg',
    attach_each mlflow experiment_name run_ids w = (inr tt, w')
    /\ runs (ds w') !! experiment_name = Some cfg'
    /\ getattr cfg' "runs" = inr (VList (l ++ names))
    /\ (forall run_name, run_name ∈ l ++ names <-> run_name ∈ l \/ run_name ∈ names)
    /\ (forall run_name,
          count_occ string_dec (l ++ names) run_name
          = count_occ string_dec l run_name
            + count_occ string_dec names run_name).
Proof.
  intros Hcfg Hl Hall.
  cut (exists w' cfg',
         attach_each mlflow experiment_name run_ids w = (inr tt, w')
         /\ runs (ds w') !! experiment_name = Some cfg'
         /\ getattr cfg' "runs" = inr (VList (l ++ names))).
  { intros (w' & cfg' & H1 & H2 & H3). exists w', cfg'.
    repeat (split; [assumption|]). split.
    - intros run_name. apply elem_of_app.
    - intros run_name. apply count_occ_app. }
  revert w cfg l Hcfg Hl.
  induction Hall as [|run_id run_name run_ids names (r & Hr & Ht & Hne) _ IH];
    intros w cfg l Hcfg Hl.
  - exists w, cfg. rewrite app_nil_r. now repeat split.
  - unfold attach_each. simpl. unfold bind at 1.
    rewrite (add_run_linked mlflow _ _ _ _ _ _ _ Hr Ht Hne Hcfg Hl).
    destruct (IH (emit [EvGetRun run_id;
                        EvRegisterRun (_format_run_name run_name);
                        EvUpdateRunConfig experiment_name]
                    (store experiment_name
                       (setattr cfg "runs" (VList (l ++ [run_name])))
                       (store (_format_run_name run_name)
                          (run_config run_id run_name r) (ds w))) w)
                (setattr cfg "runs" (VList (l ++ [run_name])))
                (l ++ [run_name]))
      as (w' & cfg' & Hrun & Hcfg' & Hl').
    + unfold emit, store. simpl. apply lookup_insert_eq.
    + unfold getattr, setattr. now rewrite lookup_insert_eq.
    + exists w', cfg'. split; [exact Hrun|]. split; [exact Hcfg'|].
      now rewrite <- app_assoc in Hl'.
Qed.

End Claims.

(** ** Links: the code against the specification's list *)

Lemma other_record_not_experiment cfg : other_record cfg -> is_experiment cfg = false.
Proof.
  intros (m & Hm & Hne). rewrite (is_experiment_method _ _ Hm).
  destruct (eq_str m "mlflow_experiment") eqn:E; [|reflexivity].
  apply eq_str_true in E. contradiction.
Qed.

Lemma experiment_record_is_experiment cfg name uri id :
  experiment_record cfg name uri id -> is_experiment cfg = true.
Proof.
  intros (Hm & _). rewrite (is_experiment_method _ _ Hm). reflexivity.
Qed.

Lemma spec_links_readable cfgs L :
  spec_links cfgs L ->
  forall cfg, cfg ∈ cfgs ->
    exists m, getattr cfg "method" = inr m
      /\ (is_experiment cfg = true ->
          exists name id, getattr cfg "experiment_name" = inr name
                          /\ getattr cfg "experiment_id" = inr id).
Proof.
  induction 1 as [|cfg name uri id cfgs L Hrec _ IH|cfg cfgs L Hrec _ IH];
    intros c Hin.
  - inversion Hin.
  - apply elem_of_cons in Hin. destruct Hin as [->|Hin]; [|now apply IH].
    destruct Hrec as (Hm & Hn & _ & Hi). eauto 6.
  - apply elem_of_cons in Hin. destruct Hin as [->|Hin]; [|now apply IH].
    pose proof (other_record_not_experiment _ Hrec) as Hno.
    destruct Hrec as (m & Hm & _). exists m. split; [exact Hm|].
    rewrite Hno. discriminate.
Qed.

Lemma spec_links_unique format_spec cfgs L :
  spec_links cfgs L ->
  forall L', Forall2 (links_to format_spec) (List.filter is_experiment cfgs) L' ->
             L' = L.
Proof.
  induction 1 as [|cfg name uri id cfgs L Hrec _ IH|cfg cfgs L Hrec _ IH];
    intros L' HF; simpl in HF.
  - now inversion HF.
  - rewrite (experiment_record_is_experiment _ _ _ _ Hrec) in HF.
    inversion HF as [|c u cs us Hu HF']; subst.
    destruct Hrec as (_ & Hn & Hu' & Hi).
    destruct Hu as (name' & id' & Hn' & Hi' & ->).
    rewrite Hn in Hn'. rewrite Hi in Hi'. rewrite Hu'.
    injection Hn' as <-. injection Hi' as <-.
    f_equal. now apply IH.
  - rewrite (other_record_not_experiment _ Hrec) in HF. now apply IH.
Qed.

(** C6: the query returns the one-key mapping whose "urls" list has one
    link, built from tracking URI, "/#/experiments/" and experiment id and
    paired with the experiment name, per record whose method is
    "mlflow_experiment", and nothing for any other record; a registry with
    the single experiment record exp1 / 42 / http://x gives the single link
    "http://x/#/experiments/42", and a registry without experiment records
    gives the empty list. *)
Theorem candidate_experiments_links (format_spec : value -> string) :
  (forall w L,
     spec_links (records w) L ->
     get_candidate_experiments format_spec w = (inr {[ "urls" := L ]}, w))
  /\ (forall w key cfg,
        runs (ds w) = {[ key := cfg ]} ->
        experiment_record cfg (VStr "exp1") "http://x" "42" ->
        get_candidate_experiments format_spec w
        = (inr {[ "urls" := [ {[ "url" := VStr "http://x/#/experiments/42";
                                 "name" := VStr "exp1" ]} ] ]}, w))
  /\ (forall w,
        (forall key cfg, runs (ds w) !! key = Some cfg -> other_record cfg) ->
        get_candidate_experiments format_spec w = (inr {[ "urls" := [] ]}, w)).
Proof.
  assert (Hgen : forall w L,
     spec_links (records w) L ->
     get_candidate_experiments format_spec w = (inr {[ "urls" := L ]}, w)).
  { intros w L HL.
    destruct (candidates_spec format_spec w (spec_links_readable _ _ HL))
      as (L' & Hrun & HF).
    now rewrite (spec_links_unique _ _ _ HL _ HF) in Hrun. }
  split; [exact Hgen|]. split.
  - intros w key cfg Hreg Hrec. apply Hgen.
    unfold records. rewrite Hreg, map_to_list_singleton. simpl.
    apply (links_experiment cfg (VStr "exp1") "http://x" "42" [] [] Hrec).
    constructor.
  - intros w Hall. apply Hgen.
    assert (Hrecs : Forall other_record (records w)).
    { apply Forall_forall. intros cfg Hin.
      apply records_elem in Hin. destruct Hin as [k Hk]. now apply (Hall k). }
    induction Hrecs as [|cfg cfgs Hcfg _ IH]; [constructor|].
    now apply links_other.
Qed.

(** C8: whatever the read of [tracking_uri] does on the kept records, the
    query returns (given that the other reads it makes succeed); for each
    kept record whose [tracking_uri] read raises, whatever the exception,
    the link is built on "http://localhost:8080". *)
Theorem tracking_uri_errors_fall_back (format_spec : value -> string) w :
  (forall cfg, cfg ∈ records w ->
     exists m, getattr cfg "method" = inr m
       /\ (is_experiment cfg = true ->
           exists name id, getattr cfg "experiment_name" = inr name
                           /\ getattr cfg "experiment_id" = inr id)) ->
  exists L,
    get_candidate_experiments format_spec w = (inr {[ "urls" := L ]}, w)
    /\ Forall2 (fun cfg u =>
                  forall e, getattr cfg "tracking_uri" = inl e ->
                    exists id,
                      getattr cfg "experiment_id" = inr id
                      /\ u !! "url"
                         = Some (VStr ("http://localhost:8080"
                                       +:+ "/#/experiments/"
                                       +:+ format format_spec id)))
               (List.filter is_experiment (records w)) L.
Proof.
  intros Hall. destruct (candidates_spec format_spec w Hall) as (L & Hrun & HF).
  exists L. split; [exact Hrun|].
  eapply Forall2_impl; [exact HF|].
  intros cfg u (name & id & Hn & Hi & ->) e He.
  exists id. split; [exact Hi|]. rewrite He. apply lookup_insert_eq.
Qed.

(** ** The statements at sample inputs *)

Lemma log_run_my_run_witness :
  runs (_dataset (DatasetView (ds Sample.logged) ["limit"])) !! "exp1"
  = Some (experiment_config "exp1" "http://localhost:8080" Sample.exp1)
  /\ getattr (experiment_config "exp1" "http://localhost:8080" Sample.exp1) "runs"
     = inr (VList [])
  /\ get_run Sample.service "run123" = inr Sample.run123
  /\ tags (data Sample.run123) !! "mlflow.runName" = Some "My-Run"
  /\ exists sc' tr' cfg',
       log_mlflow_run_to_fiftyone_dataset Sample.service
         (DatasetView (ds Sample.logged) ["limit"]) "exp1" (Some "run123") []
       = (inr tt, (sc', tr'))
       /\ is_Some (runs (_dataset sc') !! "My_Run")
       /\ runs (_dataset sc') !! "exp1" = Some cfg'
       /\ getattr cfg' "runs" = inr (VList ["My-Run"]).
Proof.
  assert (H1 : runs (_dataset (DatasetView (ds Sample.logged) ["limit"])) !! "exp1"
               = Some (experiment_config "exp1" "http://localhost:8080" Sample.exp1))
    by (vm_compute; reflexivity).
  assert (H2 : getattr (experiment_config "exp1" "http://localhost:8080" Sample.exp1)
                 "runs" = inr (VList [])) by reflexivity.
  assert (H3 : get_run Sample.service "run123" = inr Sample.run123) by reflexivity.
  assert (H4 : tags (data Sample.run123) !! "mlflow.runName" = Some "My-Run")
    by reflexivity.
  repeat (split; [assumption|]).
  destruct (log_run_my_run Sample.service _ [] _ _ _ H1 H2 H3 H4)
    as (sc' & tr' & rec & cfg' & Hrun & Hrec & _ & _ & _ & _ & _ & _ & _ & _
        & Hcfg' & Hl & _).
  exists sc', tr', cfg'. split; [exact Hrun|]. split; [rewrite Hrec; eauto|].
  split; [exact Hcfg'|exact Hl].
Defined.

Lemma initialize_writes_experiment_record_witness :
  runs (ds Sample.fresh) !! "exp1" = None
  /\ get_experiment_by_name Sample.service "exp1" = inr (Some Sample.exp1)
  /\ exists w' cfg,
       _initialize_fiftyone_run_for_mlflow_experiment Sample.service
         "exp1" (Some "http://x") Sample.fresh = (inr tt, w')
       /\ get_run_info "exp1" w' = (inr {| config := cfg |}, w')
       /\ getattr cfg "method" = inr (VStr "mlflow_experiment")
       /\ getattr cfg "runs" = inr (VList [])
       /\ getattr cfg "tracking_uri" = inr (VStr "http://x").
Proof.
  assert (H1 : runs (ds Sample.fresh) !! "exp1" = None) by reflexivity.
  assert (H2 : get_experiment_by_name Sample.service "exp1"
               = inr (Some Sample.exp1)) by reflexivity.
  repeat (split; [assumption|]).
  destruct (initialize_writes_experiment_record Sample.service
              "exp1" (Some "http://x") Sample.exp1 Sample.fresh H1 H2)
    as (w' & cfg & Hrun & Hget & Hm & Hr & _ & _ & _ & _ & _ & Hu).
  exists w', cfg. now repeat split.
Defined.

(** C2 as first stated fails: an empty tracking URI is supplied, and the
    record gets the default instead. *)
Lemma initialize_empty_uri_gets_default :
  exists w' cfg,
    runs (ds Sample.fresh) !! "exp1" = None
    /\ _initialize_fiftyone_run_for_mlflow_experiment Sample.service
         "exp1" (Some "") Sample.fresh = (inr tt, w')
    /\ get_run_info "exp1" w' = (inr {| config := cfg |}, w')
    /\ getattr cfg "tracking_uri" = inr (VStr "http://localhost:8080")
    /\ getattr cfg "tracking_uri" <> inr (VStr "").
Proof.
  eexists. eexists. split; [reflexivity|].
  split; [apply (initialize_found _ _ _ Sample.exp1); reflexivity|].
  split; [vm_compute; reflexivity|].
  split; [reflexivity|]. discriminate.
Qed.

Lemma ensure_twice_is_once_witness :
  truthy None = false
  /\ truthy (Some "") = false
  /\ log_mlflow_run_to_fiftyone_dataset Sample.service
       (Dataset (ds Sample.fresh)) "exp1" None []
     = (inr tt, (Dataset (ds Sample.logged),
                 [EvGetExperimentByName "exp1"; EvRegisterRun "exp1"]))
  /\ log_mlflow_run_to_fiftyone_dataset Sample.service
       (Dataset (ds Sample.logged)) "exp1" (Some "")
       [EvGetExperimentByName "exp1"; EvRegisterRun "exp1"]
     = (inr tt, (Dataset (ds Sample.logged),
                 [EvGetExperimentByName "exp1"; EvRegisterRun "exp1"]))
  /\ count_occ string_dec (run_keys (_dataset (Dataset (ds Sample.logged)))) "exp1"
     = 1.
Proof.
  assert (H1 : truthy None = false) by reflexivity.
  assert (H2 : truthy (Some "") = false) by reflexivity.
  assert (H3 : log_mlflow_run_to_fiftyone_dataset Sample.service
                 (Dataset (ds Sample.fresh)) "exp1" None []
               = (inr tt, (Dataset (ds Sample.logged),
                           [EvGetExperimentByName "exp1"; EvRegisterRun "exp1"])))
    by (vm_compute; reflexivity).
  split; [exact H1|]. split; [exact H2|]. split; [exact H3|].
  exact (proj2 (ensure_twice_is_once Sample.service
                  (Dataset (ds Sample.fresh)) "exp1" [])
           None (Some "") _ _ H1 H2 H3).
Defined.

(** C4 as first stated fails: the same run attached twice is listed twice. *)
Lemma attach_twice_lists_twice :
  exists cfg,
    _add_fiftyone_run_for_mlflow_run Sample.service "exp1" "run123" Sample.logged
    = (inr tt,
       snd (_add_fiftyone_run_for_mlflow_run Sample.service "exp1" "run123"
              Sample.logged))
    /\ _add_fiftyone_run_for_mlflow_run Sample.service "exp1" "run123"
         (snd (_add_fiftyone_run_for_mlflow_run Sample.service "exp1" "run123"
                 Sample.logged))
       = (inr tt,
          snd (attach_each Sample.service "exp1" ["run123"; "run123"]
                 Sample.logged))
    /\ runs (ds (snd (attach_each Sample.service "exp1" ["run123"; "run123"]
                       Sample.logged))) !! "exp1" = Some cfg
    /\ getattr cfg "runs" = inr (VList ["My-Run"; "My-Run"])
    /\ count_occ string_dec ["My-Run"; "My-Run"] "My-Run" = 2.
Proof.
  eexists. split; [vm_compute; reflexivity|].
  split; [vm_compute; reflexivity|].
  split; [vm_compute; reflexivity|].
  split; [vm_compute; reflexivity|]. reflexivity.
Qed.

Lemma attach_appends_each_time_witness :
  runs (ds Sample.logged) !! "exp1"
  = Some (experiment_config "exp1" "http://localhost:8080" Sample.exp1)
  /\ getattr (experiment_config "exp1" "http://localhost:8080" Sample.exp1) "runs"
     = inr (VList [])
  /\ Forall2 (fun run_id run_name =>
                exists r, get_run Sample.service run_id = inr r
                          /\ tags (data r) !! "mlflow.runName" = Some run_name
                          /\ _format_run_name run_name <> "exp1")
             ["run123"; "run123"] ["My-Run"; "My-Run"]
  /\ exists w' cfg',
       attach_each Sample.service "exp1" ["run123"; "run123"] Sample.logged
       = (inr tt, w')
       /\ runs (ds w') !! "exp1" = Some cfg'
       /\ getattr cfg' "runs" = inr (VList ["My-Run"; "My-Run"]).
Proof.
  assert (H1 : runs (ds Sample.logged) !! "exp1"
               = Some (experiment_config "exp1" "http://localhost:8080" Sample.exp1))
    by (vm_compute; reflexivity).
  assert (H2 : getattr (experiment_config "exp1" "http://localhost:8080" Sample.exp1)
                 "runs" = inr (VList [])) by reflexivity.
  assert (H3 : Forall2 (fun run_id run_name =>
                exists r, get_run Sample.service run_id = inr r
                          /\ tags (data r) !! "mlflow.runName" = Some run_name
                          /\ _format_run_name run_name <> "exp1")
             ["run123"; "run123"] ["My-Run"; "My-Run"]).
  { repeat constructor; exists Sample.run123;
      (split; [reflexivity|split; [reflexivity|discriminate]]). }
  split; [exact H1|]. split; [exact H2|]. split; [exact H3|].
  destruct (attach_appends_each_time Sample.service "exp1" _ _ _ _ _ H1 H2 H3)
    as (w' & cfg' & Hrun & Hcfg' & Hl & _).
  exists w', cfg'. now repeat split.
Defined.

Lemma tracking_failures_write_nothing_witness :
  (get_experiment_by_name Sample.service "exp2" = inl Sample.not_found
   /\ exists w',
        _initialize_fiftyone_run_for_mlflow_experiment Sample.service
          "exp2" None Sample.fresh = (inl Sample.not_found, w')
        /\ ds w' = ds Sample.fresh
        /\ trace w' = trace Sample.fresh ++ [EvGetExperimentByName "exp2"])
  /\ (get_experiment_by_name Corner.service "ghost" = inr None
      /\ exists w',
           _initialize_fiftyone_run_for_mlflow_experiment Corner.service
             "ghost" None Sample.fresh
           = (inl (AttributeError "artifact_location"), w')
           /\ ds w' = ds Sample.fresh
           /\ trace w' = trace Sample.fresh ++ [EvGetExperimentByName "ghost"])
  /\ (get_run Sample.service "run789" = inl Sample.not_found
      /\ exists w',
           _add_fiftyone_run_for_mlflow_run Sample.service "exp1" "run789"
             Sample.logged = (inl Sample.not_found, w')
           /\ ds w' = ds Sample.logged
           /\ trace w' = trace Sample.logged ++ [EvGetRun "run789"])
  /\ (get_run Sample.service "run456" = inr Sample.run456
      /\ tags (data Sample.run456) !! "mlflow.runName" = None
      /\ exists w',
           _add_fiftyone_run_for_mlflow_run Sample.service "exp1" "run456"
             Sample.logged = (inl (KeyError "mlflow.runName"), w')
           /\ ds w' = ds Sample.logged
           /\ trace w' = trace Sample.logged ++ [EvGetRun "run456"]).
Proof.
  destruct (tracking_failures_write_nothing Sample.service)
    as (Hexp & _ & Hrun & Htag).
  destruct (tracking_failures_write_nothing Corner.service)
    as (_ & Hnone & _ & _).
  assert (H1 : get_experiment_by_name Sample.service "exp2" = inl Sample.not_found)
    by reflexivity.
  assert (H0 : get_experiment_by_name Corner.service "ghost" = inr None)
    by reflexivity.
  assert (H2 : get_run Sample.service "run789" = inl Sample.not_found)
    by reflexivity.
  assert (H3 : get_run Sample.service "run456" = inr Sample.run456) by reflexivity.
  assert (H4 : tags (data Sample.run456) !! "mlflow.runName" = None) by reflexivity.
  split; [split; [exact H1|exact (Hexp "exp2" None Sample.fresh _ H1)]|].
  split; [split; [exact H0|exact (Hnone "ghost" None Sample.fresh H0)]|].
  split; [split; [exact H2|exact (Hrun "exp1" "run789" Sample.logged _ H2)]|].
  split; [exact H3|]. split; [exact H4|].
  exact (Htag "exp1" "run456" Sample.logged _ H3 H4).
Defined.

(** C5 as first stated fails: the client reports no experiment by answering
    [None]; it raises nothing, and what reaches the caller is the plugin's
    own [AttributeError], not a not-found error of the client. *)
Lemma initialize_on_none_raises_attribute_error :
  exists w',
    get_experiment_by_name Corner.service "ghost" = inr None
    /\ _initialize_fiftyone_run_for_mlflow_experiment Corner.service
         "ghost" None Sample.fresh
       = (inl (AttributeError "artifact_location"), w')
    /\ AttributeError "artifact_location" <> Sample.not_found
    /\ (forall msg, AttributeError "artifact_location" <> MlflowException msg)
    /\ ds w' = ds Sample.fresh.
Proof.
  eexists. split; [reflexivity|].
  split; [apply initialize_none; reflexivity|].
  split; [discriminate|]. split; [intros msg; discriminate|reflexivity].
Qed.

Lemma attach_without_parent_keeps_run_record_witness :
  get_run Sample.service "run123" = inr Sample.run123
  /\ tags (data Sample.run123) !! "mlflow.runName" = Some "My-Run"
  /\ runs (ds Sample.fresh) !! "exp1" = None
  /\ exists e w',
       _add_fiftyone_run_for_mlflow_run Sample.service "exp1" "run123"
         Sample.fresh = (inl e, w')
       /\ e = ValueError "exp1"
       /\ runs (ds w') !! "My_Run"
          = Some (run_config "run123" "My-Run" Sample.run123)
       /\ ds w' <> ds Sample.fresh
       /\ trace w' = [EvGetRun "run123"; EvRegisterRun "My_Run"].
Proof.
  assert (H1 : get_run Sample.service "run123" = inr Sample.run123) by reflexivity.
  assert (H2 : tags (data Sample.run123) !! "mlflow.runName" = Some "My-Run")
    by reflexivity.
  assert (H3 : runs (ds Sample.fresh) !! "exp1" = None) by reflexivity.
  split; [exact H1|]. split; [exact H2|]. split; [exact H3|].
  destruct (attach_without_parent_keeps_run_record Sample.service
              "exp1" "run123" Sample.run123 "My-Run" Sample.fresh H1 H2 H3)
    as (e & w' & Hrun & He & _ & Hrec & Hmod & Htr).
  exists e, w'. split; [exact Hrun|]. split; [exact He|].
  split; [exact Hrec|]. split; [|exact Htr].
  apply Hmod. discriminate.
Defined.

Lemma candidate_experiments_links_witness :
  (spec_links
     (records (Sample.links_world
                 {[ "exp1" := Sample.x_record;
                    "My_Run" := run_config "run123" "My-Run" Sample.run123 ]}))
     [ {[ "url" := VStr "http://x/#/experiments/42"; "name" := VStr "exp1" ]} ]
   /\ get_candidate_experiments Sample.plain
        (Sample.links_world
           {[ "exp1" := Sample.x_record;
              "My_Run" := run_config "run123" "My-Run" Sample.run123 ]})
      = (inr {[ "urls" := [ {[ "url" := VStr "http://x/#/experiments/42";
                               "name" := VStr "exp1" ]} ] ]},
         Sample.links_world
           {[ "exp1" := Sample.x_record;
              "My_Run" := run_config "run123" "My-Run" Sample.run123 ]}))
  /\ (runs (ds (Sample.links_world {[ "exp1" := Sample.x_record ]}))
      = {[ "exp1" := Sample.x_record ]}
      /\ experiment_record Sample.x_record (VStr "exp1") "http://x" "42"
      /\ get_candidate_experiments Sample.plain
           (Sample.links_world {[ "exp1" := Sample.x_record ]})
         = (inr {[ "urls" := [ {[ "url" := VStr "http://x/#/experiments/42";
                                  "name" := VStr "exp1" ]} ] ]},
            Sample.links_world {[ "exp1" := Sample.x_record ]}))
  /\ ((forall key cfg,
         runs (ds (Sample.links_world
                     {[ "My_Run" := run_config "run123" "My-Run" Sample.run123 ]}))
           !! key = Some cfg -> other_record cfg)
      /\ get_candidate_experiments Sample.plain
           (Sample.links_world
              {[ "My_Run" := run_config "run123" "My-Run" Sample.run123 ]})
         = (inr {[ "urls" := [] ]},
            Sample.links_world
              {[ "My_Run" := run_config "run123" "My-Run" Sample.run123 ]})).
Proof.
  destruct (candidate_experiments_links Sample.plain) as (Hgen & Hone & Hnone).
  assert (Hx : experiment_record Sample.x_record (VStr "exp1") "http://x" "42")
    by (repeat split; reflexivity).
  assert (Hrun : other_record (run_config "run123" "My-Run" Sample.run123)).
  { exists (VStr "mlflow_run"). split; [reflexivity|discriminate]. }
  assert (H1 : spec_links
     (records (Sample.links_world
                 {[ "exp1" := Sample.x_record;
                    "My_Run" := run_config "run123" "My-Run" Sample.run123 ]}))
     [ {[ "url" := VStr "http://x/#/experiments/42"; "name" := VStr "exp1" ]} ]).
  { change (records _)
      with [run_config "run123" "My-Run" Sample.run123; Sample.x_record].
    apply links_other; [exact Hrun|].
    apply (links_experiment _ (VStr "exp1") "http://x" "42" [] [] Hx).
    constructor. }
  assert (H3 : forall key cfg,
         runs (ds (Sample.links_world
                     {[ "My_Run" := run_config "run123" "My-Run" Sample.run123 ]}))
           !! key = Some cfg -> other_record cfg).
  { intros key cfg Hk. simpl in Hk. apply lookup_singleton_Some in Hk.
    destruct Hk as [_ <-]. exact Hrun. }
  split; [split; [exact H1|exact (Hgen _ _ H1)]|].
  split; [split; [reflexivity|split; [exact Hx|]]|].
  { exact (Hone (Sample.links_world {[ "exp1" := Sample.x_record ]})
             "exp1" Sample.x_record eq_refl Hx). }
  split; [exact H3|exact (Hnone _ H3)].
Defined.

Lemma log_run_ensures_then_attaches_witness :
  (truthy (Some "") = false
   /\ exists r sc' ens,
        log_mlflow_run_to_fiftyone_dataset Sample.service
          (DatasetView (ds Sample.fresh) ["limit"]) "exp1" (Some "") []
        = (r, (sc', [] ++ ens))
        /\ Forall (fun ev => ev = EvGetExperimentByName "exp1"
                             \/ ev = EvRegisterRun "exp1") ens)
  /\
  log_mlflow_run_to_fiftyone_dataset Sample.service
    (DatasetView (ds Sample.fresh) ["limit"]) "exp1" (Some "run123") []
  = (inr tt,
     (DatasetView Sample.linked ["limit"],
      [EvGetExperimentByName "exp1"; EvRegisterRun "exp1"; EvGetRun "run123";
       EvRegisterRun "My_Run"; EvUpdateRunConfig "exp1"]))
  /\ exists d1 ens,
       d1 = ds Sample.logged
       /\ ens = [EvGetExperimentByName "exp1"; EvRegisterRun "exp1"]
       /\ is_Some (runs (_dataset (DatasetView Sample.linked ["limit"])) !! "exp1")
       /\ exists id r run_name cfg l,
            Some "run123" = Some id
            /\ get_run Sample.service id = inr r
            /\ tags (data r) !! "mlflow.runName" = Some run_name
            /\ runs d1 !! "exp1" = Some cfg
            /\ getattr cfg "runs" = inr (VList l)
            /\ runs (_dataset (DatasetView Sample.linked ["limit"]))
                 !! _format_run_name run_name
               = Some (run_config id run_name r).
Proof.
  assert (H : log_mlflow_run_to_fiftyone_dataset Sample.service
    (DatasetView (ds Sample.fresh) ["limit"]) "exp1" (Some "run123") []
  = (inr tt,
     (DatasetView Sample.linked ["limit"],
      [EvGetExperimentByName "exp1"; EvRegisterRun "exp1"; EvGetRun "run123";
       EvRegisterRun "My_Run"; EvUpdateRunConfig "exp1"])))
    by (vm_compute; reflexivity).
  split.
  { split; [reflexivity|].
    exact (proj1 (log_run_ensures_then_attaches Sample.service
                    (DatasetView (ds Sample.fresh) ["limit"]) "exp1"
                    (Some "") []) eq_refl). }
  split; [exact H|].
  destruct (proj2 (log_run_ensures_then_attaches Sample.service
                     (DatasetView (ds Sample.fresh) ["limit"]) "exp1"
                     (Some "run123") []) _ _ H)
    as (d1 & ens & Hens & _ & Hsome & Hrest).
  exists d1, ens.
  destruct Hens as [(Hk & _)|(_ & e & He & -> & ->)].
  { destruct Hk as [cfg Hk]. discriminate Hk. }
  injection He as <-.
  split; [reflexivity|]. split; [reflexivity|]. split; [exact Hsome|].
  simpl in Hrest.
  destruct Hrest as (id & r & run_name & cfg & l & Hid & Hr & Ht & Hcfg & Hl
                     & _ & Hrec & _).
  exists id, r, run_name, cfg, l. now repeat split.
Defined.

Lemma tracking_uri_errors_fall_back_witness :
  (forall cfg,
     cfg ∈ records (Sample.links_world
                      {[ "exp0" := Sample.old_record;
                         "exp1" := Sample.odd_record ]}) ->
     exists m, getattr cfg "method" = inr m
       /\ (is_experiment cfg = true ->
           exists name id, getattr cfg "experiment_name" = inr name
                           /\ getattr cfg "experiment_id" = inr id))
  /\ getattr Sample.old_record "tracking_uri" = inl (AttributeError "tracking_uri")
  /\ getattr Sample.odd_record "tracking_uri" = inl (ValueError "tracking_uri")
  /\ exists L,
       get_candidate_experiments Sample.plain
         (Sample.links_world
            {[ "exp0" := Sample.old_record; "exp1" := Sample.odd_record ]})
       = (inr {[ "urls" := L ]},
          Sample.links_world
            {[ "exp0" := Sample.old_record; "exp1" := Sample.odd_record ]})
       /\ Forall2 (fun cfg u =>
                     forall e, getattr cfg "tracking_uri" = inl e ->
                       exists id,
                         getattr cfg "experiment_id" = inr id
                         /\ u !! "url"
                            = Some (VStr ("http://localhost:8080"
                                          +:+ "/#/experiments/"
                                          +:+ format Sample.plain id)))
                  (List.filter is_experiment
                     (records (Sample.links_world
                                 {[ "exp0" := Sample.old_record;
                                    "exp1" := Sample.odd_record ]}))) L.
Proof.
  assert (H : forall cfg,
     cfg ∈ records (Sample.links_world
                      {[ "exp0" := Sample.old_record;
                         "exp1" := Sample.odd_record ]}) ->
     exists m, getattr cfg "method" = inr m
       /\ (is_experiment cfg = true ->
           exists name id, getattr cfg "experiment_name" = inr name
                           /\ getattr cfg "experiment_id" = inr id)).
  { intros cfg Hin. apply records_elem in Hin. destruct Hin as [k Hk].
    simpl in Hk. apply lookup_insert_Some in Hk.
    destruct Hk as [[_ <-]|[_ Hk]].
    - exists (VStr "mlflow_experiment"). split; [reflexivity|].
      intros _. exists (VStr "exp1"), (VStr "42"). now split.
    - apply lookup_singleton_Some in Hk. destruct Hk as [_ <-].
      exists (VStr "mlflow_experiment"). split; [reflexivity|].
      intros _. exists (VStr "exp1"), (VStr "42"). now split. }
  split; [exact H|]. split; [reflexivity|]. split; [reflexivity|].
  exact (tracking_uri_errors_fall_back Sample.plain _ H).
Defined.

(** ** Runs of the model *)

Example log_run_trace :
  log_mlflow_run_to_fiftyone_dataset Sample.service
    (Dataset (ds Sample.fresh)) "exp1" (Some "run123") []
  = (inr tt,
     (Dataset Sample.linked,
      [EvGetExperimentByName "exp1"; EvRegisterRun "exp1"; EvGetRun "run123";
       EvRegisterRun "My_Run"; EvUpdateRunConfig "exp1"])).
Proof. vm_compute. reflexivity. Qed.

Example log_unknown_experiment :
  log_mlflow_run_to_fiftyone_dataset Sample.service
    (Dataset (ds Sample.fresh)) "exp2" (Some "run123") []
  = (inl Sample.not_found,
     (Dataset (ds Sample.fresh), [EvGetExperimentByName "exp2"])).
Proof. vm_compute. reflexivity. Qed.

Example log_run_named_as_experiment :
  fst (log_mlflow_run_to_fiftyone_dataset
         {| get_experiment_by_name _ := inr (Some Sample.exp1);
            get_run _ := inr Sample.run123 |}
         (Dataset (ds Sample.fresh)) "My_Run" (Some "run123") [])
  = inl (AttributeError "runs").
Proof. vm_compute. reflexivity. Qed.

Example fallback_links_for_old_and_odd_records :
  fst (get_candidate_experiments Sample.plain
         (Sample.links_world
            {[ "exp0" := Sample.old_record; "exp1" := Sample.odd_record ]}))
  = inr {[ "urls" :=
             [ {[ "url" := VStr "http://localhost:8080/#/experiments/42";
                  "name" := VStr "exp1" ]};
               {[ "url" := VStr "http://localhost:8080/#/experiments/42";
                  "name" := VStr "exp1" ]} ] ]}.
Proof. vm_compute. reflexivity. Qed.

Example links_stop_at_unreadable_method :
  fst (get_candidate_experiments Sample.plain
         (Sample.links_world {[ "exp1" := delete "method" Sample.x_record ]}))
  = inl (AttributeError "method").
Proof. vm_compute. reflexivity. Qed.

(** * Further properties *)

(** ** Normalised names *)

Lemma replace_char_hyphen c : replace_char "-" "_" c <> "-"%char.
Proof.
  unfold replace_char. destruct (Ascii.eqb c "-") eqn:E; [discriminate|].
  now apply Ascii.eqb_neq.
Qed.

Lemma replace_char_fixed c : replace_char "-" "_" c = c <-> c <> "-"%char.
Proof.
  unfold replace_char. destruct (Ascii.eqb c "-") eqn:E.
  - apply Ascii.eqb_eq in E. subst c. split; [discriminate|congruence].
  - apply Ascii.eqb_neq in E. now split.
Qed.

(** X1: a normalised name holds no hyphen, and normalising leaves a name
    as it is exactly when it holds none. *)
Theorem format_run_name_hyphen_free (s : string) :
  (forall i, String.get i (_format_run_name s) <> Some "-"%char)
  /\ (_format_run_name s = s <-> forall i, String.get i s <> Some "-"%char).
Proof.
  unfold _format_run_name. split.
  - intros i. rewrite replace_get. destruct (String.get i s) as [c|]; simpl.
    + intros [= H]. now apply replace_char_hyphen in H.
    + discriminate.
  - induction s as [|c s IH]; simpl.
    + split; [intros _ i; now destruct i|reflexivity].
    + split.
      * intros [= Hc Hs] i. destruct i as [|i]; simpl.
        -- intros [= ->]. now apply replace_char_fixed in Hc.
        -- now apply IH.
      * intros Hall. f_equal.
        -- apply replace_char_fixed. intros ->. now apply (Hall 0).
        -- apply IH. intros i. apply (Hall (S i)).
Qed.

(** ** Attaching runs: what is overwritten and what is kept *)

Lemma link_to_parent_cases experiment_name run_name w :
  (exists e, link_to_parent experiment_name run_name w = (inl e, w))
  \/ (exists cfg l,
        runs (ds w) !! experiment_name = Some cfg
        /\ getattr cfg "runs" = inr (VList l)
        /\ link_to_parent experiment_name run_name w
           = (inr tt,
              {| ds := store experiment_name
                         (setattr cfg "runs" (VList (l ++ [run_name]))) (ds w);
                 trace := trace w ++ [EvUpdateRunConfig experiment_name] |})).
Proof.
  unfold link_to_parent, bind, get_run_info, lift, update_run_config.
  destruct (runs (ds w) !! experiment_name) as [cfg|] eqn:Hcfg;
    [|left; eexists; reflexivity].
  simpl. destruct (getattr cfg "runs") as [e|v] eqn:Hl;
    [left; eexists; reflexivity|].
  destruct v as [s|n|l|d|d]; simpl; try (left; eexists; reflexivity).
  right. exists cfg, l. split; [reflexivity|]. split; [exact Hl|].
  now rewrite Hcfg.
Qed.

Lemma link_to_parent_error experiment_name run_name cfg w :
  runs (ds w) !! experiment_name = Some cfg ->
  (forall l, getattr cfg "runs" <> inr (VList l)) ->
  link_to_parent experiment_name run_name w
  = (inl match getattr cfg "runs" with
         | inl e => e
         | inr _ => AttributeError "append"
         end, w).
Proof.
  intros Hcfg Hno.
  unfold link_to_parent, bind, get_run_info, lift, update_run_config.
  rewrite Hcfg. simpl. destruct (getattr cfg "runs") as [e|v]; [reflexivity|].
  destruct v as [s|n|l|d|d]; try reflexivity. now destruct (Hno l).
Qed.

Section Attach.

Context (mlflow : tracking).

Lemma add_run_parent experiment_name run_id r run_name w :
  get_run mlflow run_id = inr r ->
  tags (data r) !! "mlflow.runName" = Some run_name ->
  _add_fiftyone_run_for_mlflow_run mlflow experiment_name run_id w
  = link_to_parent experiment_name run_name
      (emit [EvGetRun run_id; EvRegisterRun (_format_run_name run_name)]
         (store (_format_run_name run_name)
            (run_config run_id run_name r) (ds w)) w).
Proof. exact (add_run_registered mlflow experiment_name run_id r run_name w). Qed.

(** X2: two runs whose display names normalise to the same key share one
    registry record: after attaching both, the key holds the record of the
    second run only, while the parent's [runs] lists both raw names. *)
Theorem attach_colliding_names_keeps_last
    experiment_name id1 id2 r1 r2 name1 name2 cfg l w :
  get_run mlflow id1 = inr r1 ->
  tags (data r1) !! "mlflow.runName" = Some name1 ->
  get_run mlflow id2 = inr r2 ->
  tags (data r2) !! "mlflow.runName" = Some name2 ->
  _format_run_name name1 = _format_run_name name2 ->
  _format_run_name name1 <> experiment_name ->
  runs (ds w) !! experiment_name = Some cfg ->
  getattr cfg "runs" = inr (VList l) ->
  exists w1 w2 cfg2,
    _add_fiftyone_run_for_mlflow_run mlflow experiment_name id1 w = (inr tt, w1)
    /\ _add_fiftyone_run_for_mlflow_run mlflow experiment_name id2 w1 = (inr tt, w2)
    /\ runs (ds w2) !! _format_run_name name1 = Some (run_config id2 name2 r2)
    /\ runs (ds w2) !! experiment_name = Some cfg2
    /\ getattr cfg2 "runs" = inr (VList (l ++ [name1; name2]))
    /\ (forall k, k <> _format_run_name name1 -> k <> experiment_name ->
                  runs (ds w2) !! k = runs (ds w) !! k).
Proof.
  intros Hr1 Ht1 Hr2 Ht2 Heq Hne Hcfg Hl.
  assert (Hne2 : _format_run_name name2 <> experiment_name) by now rewrite <- Heq.
  do 3 eexists.
  split; [apply (add_run_linked mlflow _ _ _ _ _ _ _ Hr1 Ht1 Hne Hcfg Hl)|].
  split.
  { apply (add_run_linked mlflow _ _ r2 name2
             (setattr cfg "runs" (VList (l ++ [name1]))) (l ++ [name1]) _ Hr2 Ht2 Hne2).
    - simpl. apply lookup_insert_eq.
    - unfold getattr, setattr. now rewrite lookup_insert_eq. }
  simpl. split.
  { rewrite lookup_insert_ne by congruence. rewrite Heq. apply lookup_insert_eq. }
  split; [apply lookup_insert_eq|].
  split.
  { unfold getattr, setattr. rewrite lookup_insert_eq. now rewrite <- app_assoc. }
  intros k Hk1 Hk2.
  rewrite lookup_insert_ne by congruence.
  rewrite lookup_insert_ne by congruence.
  rewrite lookup_insert_ne by congruence.
  now rewrite lookup_insert_ne by congruence.
Qed.

(** X3: an attach that returns has changed the registry at two keys only,
    the normalised run name and the experiment name; every other record and
    the dataset's name are as before, and in the parent record only [runs]
    has changed. *)
Theorem attach_changes_two_records experiment_name run_id w w' :
  _add_fiftyone_run_for_mlflow_run mlflow experiment_name run_id w = (inr tt, w') ->
  exists r run_name cfg cfg',
    get_run mlflow run_id = inr r
    /\ tags (data r) !! "mlflow.runName" = Some run_name
    /\ (forall k, k <> _format_run_name run_name -> k <> experiment_name ->
                  runs (ds w') !! k = runs (ds w) !! k)
    /\ name (ds w') = name (ds w)
    /\ runs (ds w) !! experiment_name = Some cfg
    /\ runs (ds w') !! experiment_name = Some cfg'
    /\ (forall a, a <> "runs" -> cfg' !! a = cfg !! a).
Proof.
  intros Hrun. apply add_run_inv in Hrun.
  destruct Hrun as (r & run_name & cfg & l & Hr & Ht & Hne & Hcfg & Hl & ->).
  exists r, run_name, cfg, (setattr cfg "runs" (VList (l ++ [run_name]))).
  split; [exact Hr|]. split; [exact Ht|]. simpl. split.
  { intros k Hk1 Hk2. rewrite lookup_insert_ne by congruence.
    now rewrite lookup_insert_ne by congruence. }
  split; [reflexivity|]. split; [exact Hcfg|].
  split; [apply lookup_insert_eq|].
  intros a Ha. unfold setattr. now rewrite lookup_insert_ne by congruence.
Qed.

(** X4: a run whose normalised display name is the experiment name takes
    the experiment's place: whatever was stored under the experiment name is
    replaced by the run record, and the attach then raises
    [AttributeError] on the [runs] of that run record. *)
Theorem attach_named_as_experiment_replaces_it
    experiment_name run_id r run_name w :
  get_run mlflow run_id = inr r ->
  tags (data r) !! "mlflow.runName" = Some run_name ->
  _format_run_name run_name = experiment_name ->
  exists w',
    _add_fiftyone_run_for_mlflow_run mlflow experiment_name run_id w
    = (inl (AttributeError "runs"), w')
    /\ runs (ds w') !! experiment_name = Some (run_config run_id run_name r)
    /\ (forall k, k <> experiment_name -> runs (ds w') !! k = runs (ds w) !! k)
    /\ trace w' = trace w ++ [EvGetRun run_id; EvRegisterRun experiment_name].
Proof.
  intros Hr Ht Heq. eexists. split.
  - rewrite (add_run_parent _ _ _ _ _ Hr Ht).
    apply (link_to_parent_error _ _ (run_config run_id run_name r)).
    + simpl. rewrite Heq. apply lookup_insert_eq.
    + intros l. discriminate.
  - simpl. rewrite Heq. split; [apply lookup_insert_eq|].
    split; [|reflexivity]. intros k Hk. now rewrite lookup_insert_ne by congruence.
Qed.

(** X5: when the record under the experiment name has no list under
    [runs], the attach raises (the exception of the [runs] read, or
    [AttributeError] for [append] on a value that is not a list) after the
    run record is written: the run record stays, the parent record is
    untouched, and no update is made. *)
Theorem attach_to_record_without_run_list
    experiment_name run_id r run_name cfg w :
  get_run mlflow run_id = inr r ->
  tags (data r) !! "mlflow.runName" = Some run_name ->
  _format_run_name run_name <> experiment_name ->
  runs (ds w) !! experiment_name = Some cfg ->
  (forall l, getattr cfg "runs" <> inr (VList l)) ->
  exists w',
    _add_fiftyone_run_for_mlflow_run mlflow experiment_name run_id w
    = (inl match getattr cfg "runs" with
           | inl e => e
           | inr _ => AttributeError "append"
           end, w')
    /\ runs (ds w') !! _format_run_name run_name
       = Some (run_config run_id run_name r)
    /\ runs (ds w') !! experiment_name = Some cfg
    /\ trace w' = trace w ++ [EvGetRun run_id;
                              EvRegisterRun (_format_run_name run_name)].
Proof.
  intros Hr Ht Hne Hcfg Hno. eexists. split.
  - rewrite (add_run_parent _ _ _ _ _ Hr Ht).
    apply (link_to_parent_error _ _ cfg); [|exact Hno].
    simpl. now rewrite lookup_insert_ne by exact Hne.
  - simpl. split; [apply lookup_insert_eq|].
    split; [|reflexivity]. now rewrite lookup_insert_ne by exact Hne.
Qed.

(** X6: the initialisation does not look for an existing record.  Called
    after a run has been attached, it replaces the experiment record by a
    fresh one with an empty [runs], while the run record stays in the
    registry. *)
Theorem initialize_after_attach_forgets_runs
    experiment_name run_id tracking_uri e w w1 :
  _add_fiftyone_run_for_mlflow_run mlflow experiment_name run_id w = (inr tt, w1) ->
  get_experiment_by_name mlflow experiment_name = inr (Some e) ->
  exists w2 r run_name,
    _initialize_fiftyone_run_for_mlflow_experiment mlflow
      experiment_name tracking_uri w1 = (inr tt, w2)
    /\ runs (ds w2) !! experiment_name
       = Some (experiment_config experiment_name
                 (py_or tracking_uri "http://localhost:8080") e)
    /\ getattr (experiment_config experiment_name
                  (py_or tracking_uri "http://localhost:8080") e) "runs"
       = inr (VList [])
    /\ get_run mlflow run_id = inr r
    /\ tags (data r) !! "mlflow.runName" = Some run_name
    /\ runs (ds w2) !! _format_run_name run_name
       = Some (run_config run_id run_name r).
Proof.
  intros Hrun He. apply add_run_inv in Hrun.
  destruct Hrun as (r & run_name & cfg & l & Hr & Ht & Hne & Hcfg & Hl & ->).
  eexists. exists r, run_name.
  split; [apply (initialize_found mlflow _ _ _ _ He)|].
  simpl. split; [apply lookup_insert_eq|]. split; [reflexivity|].
  split; [exact Hr|]. split; [exact Ht|].
  rewrite lookup_insert_ne by congruence.
  rewrite lookup_insert_ne by congruence.
  apply lookup_insert_eq.
Qed.

End Attach.

(** ** The entry point: failures, composition, and what is never undone *)

Lemma with_dataset_same sc : with_dataset sc (_dataset sc) = sc.
Proof. now destruct sc. Qed.

Lemma with_dataset_twice sc d d' :
  with_dataset (with_dataset sc d) d' = with_dataset sc d'.
Proof. now destruct sc. Qed.

Lemma grows_refl w : grows w w.
Proof. repeat split; [auto|]. exists []. now rewrite app_nil_r. Qed.

Lemma grows_trans w1 w2 w3 : grows w1 w2 -> grows w2 w3 -> grows w1 w3.
Proof.
  intros (Hk & Hn & evs & Ht) (Hk' & Hn' & evs' & Ht').
  repeat split; [auto|congruence|].
  exists (evs ++ evs'). now rewrite Ht', Ht, app_assoc.
Qed.

Lemma grows_emit evs w : grows w (emit evs (ds w) w).
Proof. repeat split; [auto|]. now exists evs. Qed.

Lemma grows_store evs k cfg w : grows w (emit evs (store k cfg (ds w)) w).
Proof.
  repeat split; [|now exists evs].
  intros k' Hk'. simpl. destruct (decide (k = k')) as [->|Hne].
  - rewrite lookup_insert_eq. eauto.
  - now rewrite lookup_insert_ne by exact Hne.
Qed.

Lemma link_to_parent_grows experiment_name run_name w r w' :
  link_to_parent experiment_name run_name w = (r, w') -> grows w w'.
Proof.
  destruct (link_to_parent_cases experiment_name run_name w)
    as [[e He]|(cfg & l & _ & _ & He)]; rewrite He; intros [= _ <-].
  - apply grows_refl.
  - apply (grows_store [EvUpdateRunConfig experiment_name]).
Qed.

Section Entry.

Context (mlflow : tracking).

Lemma initialize_grows experiment_name tracking_uri w r w' :
  _initialize_fiftyone_run_for_mlflow_experiment mlflow
    experiment_name tracking_uri w = (r, w') -> grows w w'.
Proof.
  destruct (get_experiment_by_name mlflow experiment_name) as [x|[e|]] eqn:He.
  - rewrite (initialize_raises _ _ _ _ _ He). intros [= _ <-]. apply grows_emit.
  - rewrite (initialize_found _ _ _ _ _ He). intros [= _ <-]. apply grows_store.
  - rewrite (initialize_none _ _ _ _ He). intros [= _ <-]. apply grows_emit.
Qed.

Lemma add_run_grows experiment_name run_id w r w' :
  _add_fiftyone_run_for_mlflow_run mlflow experiment_name run_id w = (r, w') ->
  grows w w'.
Proof.
  destruct (get_run mlflow run_id) as [x|rn] eqn:Hr.
  { rewrite (add_run_raises _ _ _ _ _ Hr). intros [= _ <-]. apply grows_emit. }
  destruct (tags (data rn) !! "mlflow.runName") as [run_name|] eqn:Ht.
  2:{ rewrite (add_run_no_name _ _ _ _ _ Hr Ht). intros [= _ <-]. apply grows_emit. }
  rewrite (add_run_parent _ _ _ _ _ _ Hr Ht). intros Hlink.
  eapply grows_trans; [apply grows_store|].
  exact (link_to_parent_grows _ _ _ _ _ Hlink).
Qed.

Lemma log_on_dataset_grows experiment_name run_id w r w' :
  log_on_dataset mlflow experiment_name run_id w = (r, w') -> grows w w'.
Proof.
  assert (Hcont : forall w1,
    match run_id with
    | Some id => if truthy run_id
                 then _add_fiftyone_run_for_mlflow_run mlflow experiment_name id w1
                 else (inr tt, w1)
    | None => (inr tt, w1)
    end = (r, w') -> grows w1 w').
  { intros w1. destruct run_id as [id|]; [|intros [= _ <-]; apply grows_refl].
    destruct (truthy (Some id)); [apply add_run_grows|].
    intros [= _ <-]. apply grows_refl. }
  destruct (runs (ds w) !! experiment_name) as [cfg|] eqn:Hk.
  - rewrite log_known by (rewrite Hk; eauto). apply Hcont.
  - rewrite log_unknown by exact Hk.
    destruct (_initialize_fiftyone_run_for_mlflow_experiment _ _ _ _)
      as [[x|[]] w1] eqn:Hinit; apply initialize_grows in Hinit.
    + now intros [= _ <-].
    + intros H. eapply grows_trans; [exact Hinit|]. now apply Hcont.
Qed.

(** X7: when the registry has no record under the experiment name and the
    client raises for it, or answers [None], the call ends there for every
    [run_id]: with the client's exception, or with [AttributeError] on
    [artifact_location]; the collection is unchanged and the only call made
    is the experiment fetch, so no run is fetched. *)
Theorem log_stops_at_unknown_experiment
    sample_collection experiment_name run_id tr :
  runs (_dataset sample_collection) !! experiment_name = None ->
  (forall e,
     get_experiment_by_name mlflow experiment_name = inl e ->
     log_mlflow_run_to_fiftyone_dataset mlflow sample_collection
       experiment_name run_id tr
     = (inl e, (sample_collection,
                tr ++ [EvGetExperimentByName experiment_name])))
  /\ (get_experiment_by_name mlflow experiment_name = inr None ->
      log_mlflow_run_to_fiftyone_dataset mlflow sample_collection
        experiment_name run_id tr
      = (inl (AttributeError "artifact_location"),
         (sample_collection, tr ++ [EvGetExperimentByName experiment_name]))).
Proof.
  intros Hk. split.
  - intros e He. unfold log_mlflow_run_to_fiftyone_dataset.
    rewrite log_unknown by exact Hk. rewrite (initialize_raises _ _ _ _ _ He).
    simpl. now rewrite with_dataset_same.
  - intros He. unfold log_mlflow_run_to_fiftyone_dataset.
    rewrite log_unknown by exact Hk. rewrite (initialize_none _ _ _ _ He).
    simpl. now rewrite with_dataset_same.
Qed.

(** X8: a call is not undone when its second half fails: with the
    experiment new to the registry and known to the client, and a run id
    the client raises for, the call raises that exception, and the fresh
    experiment record, with an empty [runs], stays in the registry. *)
Theorem log_keeps_experiment_when_run_is_unknown
    sample_collection experiment_name run_id tr e x :
  runs (_dataset sample_collection) !! experiment_name = None ->
  get_experiment_by_name mlflow experiment_name = inr (Some e) ->
  truthy (Some run_id) = true ->
  get_run mlflow run_id = inl x ->
  exists sc',
    log_mlflow_run_to_fiftyone_dataset mlflow sample_collection
      experiment_name (Some run_id) tr
    = (inl x, (sc', tr ++ [EvGetExperimentByName experiment_name;
                           EvRegisterRun experiment_name;
                           EvGetRun run_id]))
    /\ runs (_dataset sc') !! experiment_name
       = Some (experiment_config experiment_name "http://localhost:8080" e)
    /\ (forall k, k <> experiment_name ->
                  runs (_dataset sc') !! k
                  = runs (_dataset sample_collection) !! k).
Proof.
  intros Hk He Ht Hr. eexists. split.
  - unfold log_mlflow_run_to_fiftyone_dataset.
    rewrite log_unknown by exact Hk. rewrite (initialize_found _ _ _ _ _ He).
    rewrite Ht. rewrite (add_run_raises _ _ _ _ _ Hr). simpl.
    now rewrite <- app_assoc.
  - rewrite dataset_with_dataset. simpl. split; [apply lookup_insert_eq|].
    intros k Hne. now rewrite lookup_insert_ne by congruence.
Qed.

(** X9: logging the experiment first and the run afterwards is the same as
    logging both in one call: after a call without run id has returned, a
    second call with any [run_id] gives the result, the collection and the
    trace that the single call gives from the start. *)
Theorem log_in_two_steps
    sample_collection experiment_name run_id0 run_id tr sc1 tr1 :
  truthy run_id0 = false ->
  log_mlflow_run_to_fiftyone_dataset mlflow sample_collection
    experiment_name run_id0 tr = (inr tt, (sc1, tr1)) ->
  log_mlflow_run_to_fiftyone_dataset mlflow sc1 experiment_name run_id tr1
  = log_mlflow_run_to_fiftyone_dataset mlflow sample_collection
      experiment_name run_id tr.
Proof.
  intros Hf. unfold log_mlflow_run_to_fiftyone_dataset at 1.
  destruct (log_on_dataset _ _ _ _) as [x w1] eqn:Hlog.
  intros [= -> <- <-]. apply log_inv in Hlog.
  destruct Hlog as (w1' & Hens & Hsome & Hrest).
  rewrite Hf in Hrest. subst w1'.
  unfold log_mlflow_run_to_fiftyone_dataset. rewrite dataset_with_dataset.
  destruct Hens as [[Hk ->]|(Hk & e & He & ->)].
  - simpl. destruct (log_on_dataset _ _ _ _) as [r w2].
    now rewrite with_dataset_twice.
  - rewrite log_known by exact Hsome.
    rewrite (log_unknown mlflow experiment_name run_id
               {| ds := _dataset sample_collection; trace := tr |} Hk).
    rewrite (initialize_found _ _ _ _ _ He).
    change (py_or None "http://localhost:8080") with "http://localhost:8080".
    set (w1 := emit _ _ _). 
    change {| ds := ds w1; trace := trace w1 |} with w1.
    destruct (match run_id with
              | Some r => if truthy run_id
                          then _add_fiftyone_run_for_mlflow_run mlflow
                                 experiment_name r w1
                          else (inr tt, w1)
              | None => (inr tt, w1)
              end) as [r w2].
    now rewrite with_dataset_twice.
Qed.

(** X10: whatever a call does, and whether it returns or raises, no key
    leaves the registry, the dataset keeps its name, a view keeps its
    stages, and the trace is only extended. *)
Theorem log_never_removes_a_record
    sample_collection experiment_name run_id tr r sc' tr' :
  log_mlflow_run_to_fiftyone_dataset mlflow sample_collection
    experiment_name run_id tr = (r, (sc', tr')) ->
  (forall k, is_Some (runs (_dataset sample_collection) !! k) ->
             is_Some (runs (_dataset sc') !! k))
  /\ name (_dataset sc') = name (_dataset sample_collection)
  /\ sc' = with_dataset sample_collection (_dataset sc')
  /\ exists evs, tr' = tr ++ evs.
Proof.
  unfold log_mlflow_run_to_fiftyone_dataset.
  destruct (log_on_dataset _ _ _ _) as [x w'] eqn:Hlog.
  intros [= -> <- <-]. apply log_on_dataset_grows in Hlog.
  destruct Hlog as (Hk & Hn & Hev).
  rewrite !dataset_with_dataset. split; [exact Hk|]. split; [exact Hn|].
  split; [reflexivity|exact Hev].
Qed.

End Entry.

(** ** The link query: what it never does, and how it fails *)

Lemma experiment_runs_reads_only keys w :
  exists r, experiment_runs keys w = (r, w).
Proof.
  induction keys as [|k keys [r IH]]; [now exists (inr [])|].
  simpl. unfold bind at 1. unfold get_run_info at 1.
  destruct (runs (ds w) !! k) as [cfg|] eqn:Hk; [|eauto].
  unfold bind at 1. unfold lift at 1. simpl config.
  destruct (getattr cfg "method") as [e|m]; [eauto|].
  destruct (eq_str m "mlflow_experiment"); [|eauto].
  unfold bind, get_run_info, ret. rewrite Hk, IH. destruct r; eauto.
Qed.

Lemma records_lookup (w : world) k cfg :
  runs (ds w) !! k = Some cfg -> cfg ∈ records w.
Proof.
  intros Hk. unfold records. apply list_elem_of_fmap. exists (k, cfg).
  split; [reflexivity|]. now apply elem_of_map_to_list.
Qed.

(** Some record's [method] cannot be read: the comprehension raises the
    exception of such a record. *)
Lemma experiment_runs_unreadable (kvs : list (string * RunConfig)) (w : world) :
  (forall k cfg, (k, cfg) ∈ kvs -> runs (ds w) !! k = Some cfg) ->
  (exists k cfg e, (k, cfg) ∈ kvs /\ getattr cfg "method" = inl e) ->
  exists k cfg e,
    (k, cfg) ∈ kvs /\ getattr cfg "method" = inl e
    /\ experiment_runs (map fst kvs) w = (inl e, w).
Proof.
  induction kvs as [|[k cfg] kvs IH]; intros Hall (k0 & cfg0 & e0 & Hin & He0).
  { inversion Hin. }
  pose proof (Hall k cfg (list_elem_of_here _ _)) as Hk.
  simpl. unfold bind at 1. unfold get_run_info at 1. rewrite Hk.
  unfold bind at 1. unfold lift at 1. simpl config.
  destruct (getattr cfg "method") as [e|m] eqn:Hm.
  { exists k, cfg, e. split; [left|]. now split. }
  assert (Htail : exists k cfg e, (k, cfg) ∈ kvs /\ getattr cfg "method" = inl e).
  { apply elem_of_cons in Hin. destruct Hin as [[= -> ->]|Hin].
    - rewrite Hm in He0. discriminate.
    - eauto. }
  destruct (IH (fun k' cfg' H' => Hall k' cfg' (list_elem_of_further _ _ _ H')) Htail)
    as (k1 & cfg1 & e1 & Hin1 & He1 & Hrun).
  exists k1, cfg1, e1. split; [now right|]. split; [exact He1|].
  destruct (eq_str m "mlflow_experiment"); [|exact Hrun].
  unfold bind, get_run_info. rewrite Hk. unfold bind in Hrun. now rewrite Hrun.
Qed.

Section Query.

Context (format_spec : value -> string).

Lemma link_reads_only mer w : exists r, link format_spec mer w = (r, w).
Proof.
  unfold link, bind, lift, try_except, ret.
  destruct (getattr (config mer) "experiment_name"); [eauto|].
  destruct (getattr (config mer) "tracking_uri");
    destruct (getattr (config mer) "experiment_id"); eauto.
Qed.

Lemma for_each_links_reads_only infos acc w :
  exists r,
    for_each infos
      (fun urls mer => u <- link format_spec mer ;; ret (urls ++ [u])) acc w
    = (r, w).
Proof.
  revert acc. induction infos as [|mer infos IH]; intros acc; [now exists (inr acc)|].
  simpl. unfold bind at 1. unfold bind at 1.
  destruct (link_reads_only mer w) as [[e|u] Hl]; rewrite Hl; [eauto|].
  unfold ret at 1. apply IH.
Qed.

(** X11: the query only reads: whether it returns a list or raises, the
    dataset is as before and the trace has gained no tracking-service call
    and no registry write. *)
Theorem candidate_experiments_reads_only (w : world) :
  exists r, get_candidate_experiments format_spec w = (r, w).
Proof.
  unfold get_candidate_experiments. unfold bind at 1. unfold list_runs at 1.
  unfold bind at 1.
  destruct (experiment_runs_reads_only (run_keys (ds w)) w) as [[e|infos] Hruns];
    rewrite Hruns; [eauto|].
  unfold bind at 1.
  destruct (for_each_links_reads_only infos [] w) as [[e|urls] Hurls];
    rewrite Hurls; [eauto|].
  unfold ret. eauto.
Qed.

(** X12: one record whose [method] cannot be read, of whatever kind, makes
    the whole query raise: the result is the exception of such a record,
    and no list is returned, even if every experiment record is in
    order. *)
Theorem candidate_experiments_need_every_method (w : world) cfg e :
  cfg ∈ records w ->
  getattr cfg "method" = inl e ->
  exists cfg' e',
    cfg' ∈ records w
    /\ getattr cfg' "method" = inl e'
    /\ get_candidate_experiments format_spec w = (inl e', w).
Proof.
  intros Hin He. unfold records in Hin. apply list_elem_of_fmap in Hin.
  destruct Hin as ([k c] & -> & Hin). simpl in He.
  destruct (experiment_runs_unreadable (map_to_list (runs (ds w))) w)
    as (k1 & cfg1 & e1 & Hin1 & He1 & Hrun).
  { intros k' cfg'. apply elem_of_map_to_list. }
  { now exists k, c, e. }
  exists cfg1, e1. split.
  { apply (records_lookup w k1). now apply elem_of_map_to_list. }
  split; [exact He1|].
  unfold get_candidate_experiments. unfold bind at 1. unfold list_runs at 1.
  unfold run_keys. unfold bind at 1. now rewrite Hrun.
Qed.

(** The loop over the kept records, when one of them has a name or an id
    that cannot be read. *)
Lemma for_each_links_unreadable cfgs acc w :
  (exists cfg e, cfg ∈ cfgs
     /\ (getattr cfg "experiment_name" = inl e
         \/ getattr cfg "experiment_id" = inl e)) ->
  exists cfg e,
    cfg ∈ cfgs
    /\ (getattr cfg "experiment_name" = inl e
        \/ getattr cfg "experiment_id" = inl e)
    /\ for_each (map (fun cfg => {| config := cfg |}) cfgs)
         (fun urls mer => u <- link format_spec mer ;; ret (urls ++ [u])) acc w
       = (inl e, w).
Proof.
  revert acc. induction cfgs as [|cfg cfgs IH]; intros acc (c0 & e0 & Hin & Hbad).
  { inversion Hin. }
  simpl. unfold bind at 1. unfold bind at 1.
  unfold link at 1, bind, lift, try_except, ret. simpl config.
  destruct (getattr cfg "experiment_name") as [e|n] eqn:Hn.
  { exists cfg, e. split; [left|]. split; [now left|reflexivity]. }
  destruct (getattr cfg "experiment_id") as [e|i] eqn:Hi.
  { exists cfg, e. split; [left|]. split; [now right|].
    now destruct (getattr cfg "tracking_uri"). }
  assert (Htail : exists c e, c ∈ cfgs
            /\ (getattr c "experiment_name" = inl e
                \/ getattr c "experiment_id" = inl e)).
  { apply elem_of_cons in Hin. destruct Hin as [->|Hin]; [|eauto].
    destruct Hbad as [H|H]; [rewrite Hn in H|rewrite Hi in H]; discriminate. }
  destruct (getattr cfg "tracking_uri") as [x|uri];
    match goal with
    | |- context [for_each _ _ ?a w] =>
        destruct (IH a Htail) as (c1 & e1 & Hin1 & Hbad1 & Hrun)
    end;
    exists c1, e1; (split; [now right|]); (split; [exact Hbad1|]);
    unfold bind, ret in Hrun; exact Hrun.
Qed.

(** X13: only [tracking_uri] has a default.  When every [method] can be
    read and some experiment record has an [experiment_name] or an
    [experiment_id] whose read raises, the query raises the exception of
    such a read and returns no list. *)
Theorem candidate_experiments_need_name_and_id (w : world) cfg e :
  (forall c, c ∈ records w -> exists m, getattr c "method" = inr m) ->
  cfg ∈ records w ->
  is_experiment cfg = true ->
  getattr cfg "experiment_name" = inl e \/ getattr cfg "experiment_id" = inl e ->
  exists cfg' e',
    cfg' ∈ records w
    /\ is_experiment cfg' = true
    /\ (getattr cfg' "experiment_name" = inl e'
        \/ getattr cfg' "experiment_id" = inl e')
    /\ get_candidate_experiments format_spec w = (inl e', w).
Proof.
  intros Hall Hin Hexp Hbad.
  destruct (for_each_links_unreadable (List.filter is_experiment (records w)) [] w)
    as (c1 & e1 & Hin1 & Hbad1 & Hrun).
  { exists cfg, e. split; [|exact Hbad].
    apply list_elem_of_In, filter_In. split; [now apply list_elem_of_In|exact Hexp]. }
  apply list_elem_of_In, filter_In in Hin1. destruct Hin1 as [Hin1 Hexp1].
  exists c1, e1. split; [now apply list_elem_of_In|].
  split; [exact Hexp1|]. split; [exact Hbad1|].
  unfold get_candidate_experiments. unfold bind at 1. unfold list_runs at 1.
  unfold run_keys. unfold bind at 1. rewrite experiment_runs_spec.
  - fold (records w). unfold bind at 1. now rewrite Hrun.
  - intros k c Hkc. split; [now apply registry_pairs|].
    apply Hall. apply (records_lookup w k). now apply registry_pairs.
Qed.

End Query.

(** ** From the mirror to the link list *)

Lemma readable_insert (w w' : world) k cfg :
  runs (ds w') = <[k := cfg]> (runs (ds w)) ->
  (forall c, c ∈ records w -> readable c) ->
  readable cfg ->
  forall c, c ∈ records w' -> readable c.
Proof.
  intros Hreg Hall Hcfg c Hin. apply records_elem in Hin. destruct Hin as [k' Hk'].
  rewrite Hreg in Hk'. apply lookup_insert_Some in Hk'.
  destruct Hk' as [[_ <-]|[_ Hk']]; [exact Hcfg|].
  apply Hall. now apply (records_lookup w k').
Qed.

Lemma readable_fields cfg m name id :
  getattr cfg "method" = inr m ->
  getattr cfg "experiment_name" = inr name ->
  getattr cfg "experiment_id" = inr id ->
  readable cfg.
Proof. intros Hm Hn Hi. exists m. split; [exact Hm|]. intros _. eauto. Qed.

Lemma readable_run_config run_id run_name r : readable (run_config run_id run_name r).
Proof.
  exists (VStr "mlflow_run"). split; [reflexivity|]. intros H. discriminate H.
Qed.

Section Listed.

Context (format_spec : value -> string).

(** Every experiment record of a readable registry has its link in the
    list. *)
Lemma experiment_record_is_listed (w : world) k cfg name id :
  (forall c, c ∈ records w -> readable c) ->
  runs (ds w) !! k = Some cfg ->
  getattr cfg "method" = inr (VStr "mlflow_experiment") ->
  getattr cfg "experiment_name" = inr name ->
  getattr cfg "experiment_id" = inr id ->
  exists L,
    get_candidate_experiments format_spec w = (inr {[ "urls" := L ]}, w)
    /\ {[ "url" := VStr (format format_spec
                           match getattr cfg "tracking_uri" with
                           | inr uri => uri
                           | inl _ => VStr "http://localhost:8080"
                           end
                         +:+ "/#/experiments/" +:+ format format_spec id);
          "name" := name ]} ∈ L.
Proof.
  intros Hall Hk Hm Hn Hi.
  destruct (candidates_spec format_spec w Hall) as (L & Hrun & HF).
  exists L. split; [exact Hrun|].
  assert (Hin : cfg ∈ List.filter is_experiment (records w)).
  { apply list_elem_of_In, filter_In. split.
    - apply list_elem_of_In. now apply (records_lookup w k).
    - now rewrite (is_experiment_method _ _ Hm). }
  apply list_elem_of_lookup in Hin. destruct Hin as [i Hi'].
  destruct (Forall2_lookup_l _ _ _ _ _ HF Hi') as (u & Hu & Hlink).
  destruct Hlink as (name' & id' & Hn' & Hid' & ->).
  rewrite Hn in Hn'. rewrite Hi in Hid'. injection Hn' as <-. injection Hid' as <-.
  apply list_elem_of_lookup. now exists i.
Qed.

Context (mlflow : tracking).

(** X14: after a call has logged an experiment that is new to a registry
    of readable records, with or without a run, the link query returns a
    list that holds the experiment's link: its name, and a URL built on
    "http://localhost:8080" (the entry point passes no tracking URI) and
    the experiment id the client reported. *)
Theorem logged_experiment_is_listed
    sample_collection experiment_name run_id tr sc' tr' e :
  runs (_dataset sample_collection) !! experiment_name = None ->
  (forall c, c ∈ records {| ds := _dataset sample_collection; trace := tr |} ->
             readable c) ->
  get_experiment_by_name mlflow experiment_name = inr (Some e) ->
  log_mlflow_run_to_fiftyone_dataset mlflow sample_collection
    experiment_name run_id tr = (inr tt, (sc', tr')) ->
  exists L,
    get_candidate_experiments format_spec {| ds := _dataset sc'; trace := tr' |}
    = (inr {[ "urls" := L ]}, {| ds := _dataset sc'; trace := tr' |})
    /\ {[ "url" := VStr ("http://localhost:8080" +:+ "/#/experiments/"
                         +:+ experiment_id e);
          "name" := VStr experiment_name ]} ∈ L.
Proof.
  intros Hk Hall He. unfold log_mlflow_run_to_fiftyone_dataset.
  destruct (log_on_dataset _ _ _ _) as [x w'] eqn:Hlog.
  intros [= -> <- <-]. rewrite dataset_with_dataset.
  apply log_inv in Hlog. destruct Hlog as (w1 & Hens & _ & Hrest).
  destruct Hens as [[Hsome _]|(_ & e' & He' & ->)].
  { simpl in Hsome. rewrite Hk in Hsome. now destruct Hsome. }
  rewrite He in He'. injection He' as <-.
  destruct (truthy run_id).
  - destruct Hrest as (id & _ & Hadd). apply add_run_inv in Hadd.
    destruct Hadd as (r & run_name & cfg & l & _ & _ & Hne & Hcfg & Hl & ->).
    simpl in Hcfg. rewrite lookup_insert_eq in Hcfg. injection Hcfg as <-.
    apply (experiment_record_is_listed _ experiment_name
             (setattr (experiment_config experiment_name "http://localhost:8080" e)
                "runs" (VList (l ++ [run_name])))
             (VStr experiment_name) (VStr (experiment_id e)));
      [|simpl; apply lookup_insert_eq|reflexivity..].
    eapply (readable_insert
             {| ds := store (_format_run_name run_name) (run_config id run_name r)
                        (store experiment_name
                           (experiment_config experiment_name
                              "http://localhost:8080" e)
                           (_dataset sample_collection));
                trace := [] |}); [reflexivity| |].
    2:{ now apply (readable_fields _ (VStr "mlflow_experiment")
                     (VStr experiment_name) (VStr (experiment_id e))). }
    eapply (readable_insert
             {| ds := store experiment_name
                        (experiment_config experiment_name
                           "http://localhost:8080" e)
                        (_dataset sample_collection);
                trace := [] |}); [reflexivity| |].
    2:{ apply readable_run_config. }
    eapply (readable_insert {| ds := _dataset sample_collection; trace := tr |});
      [reflexivity|exact Hall|].
    now apply (readable_fields _ (VStr "mlflow_experiment")
                 (VStr experiment_name) (VStr (experiment_id e))).
  - subst w'.
    apply (experiment_record_is_listed _ experiment_name
             (experiment_config experiment_name "http://localhost:8080" e)
             (VStr experiment_name) (VStr (experiment_id e)));
      [|simpl; apply lookup_insert_eq|reflexivity..].
    eapply (readable_insert {| ds := _dataset sample_collection; trace := tr |});
      [reflexivity|exact Hall|].
    now apply (readable_fields _ (VStr "mlflow_experiment")
                 (VStr experiment_name) (VStr (experiment_id e))).
Qed.

End Listed.

(** ** The further statements at sample inputs *)

Lemma attach_colliding_names_keeps_last_witness :
  get_run Corner.service "run123" = inr Sample.run123
  /\ tags (data Sample.run123) !! "mlflow.runName" = Some "My-Run"
  /\ get_run Corner.service "run124" = inr Corner.run124
  /\ tags (data Corner.run124) !! "mlflow.runName" = Some "My_Run"
  /\ _format_run_name "My-Run" = _format_run_name "My_Run"
  /\ _format_run_name "My-Run" <> "exp1"
  /\ runs (ds Sample.logged) !! "exp1"
     = Some (experiment_config "exp1" "http://localhost:8080" Sample.exp1)
  /\ getattr (experiment_config "exp1" "http://localhost:8080" Sample.exp1) "runs"
     = inr (VList [])
  /\ exists w1 w2 cfg2,
       _add_fiftyone_run_for_mlflow_run Corner.service "exp1" "run123"
         Sample.logged = (inr tt, w1)
       /\ _add_fiftyone_run_for_mlflow_run Corner.service "exp1" "run124" w1
          = (inr tt, w2)
       /\ runs (ds w2) !! "My_Run"
          = Some (run_config "run124" "My_Run" Corner.run124)
       /\ runs (ds w2) !! "exp1" = Some cfg2
       /\ getattr cfg2 "runs" = inr (VList ["My-Run"; "My_Run"]).
Proof.
  assert (H1 : get_run Corner.service "run123" = inr Sample.run123) by reflexivity.
  assert (H2 : tags (data Sample.run123) !! "mlflow.runName" = Some "My-Run")
    by reflexivity.
  assert (H3 : get_run Corner.service "run124" = inr Corner.run124) by reflexivity.
  assert (H4 : tags (data Corner.run124) !! "mlflow.runName" = Some "My_Run")
    by reflexivity.
  assert (H5 : _format_run_name "My-Run" = _format_run_name "My_Run")
    by reflexivity.
  assert (H6 : _format_run_name "My-Run" <> "exp1") by discriminate.
  assert (H7 : runs (ds Sample.logged) !! "exp1"
               = Some (experiment_config "exp1" "http://localhost:8080" Sample.exp1))
    by (vm_compute; reflexivity).
  assert (H8 : getattr (experiment_config "exp1" "http://localhost:8080" Sample.exp1)
                 "runs" = inr (VList [])) by reflexivity.
  split; [exact H1|]. split; [exact H2|]. split; [exact H3|]. split; [exact H4|].
  split; [exact H5|]. split; [exact H6|]. split; [exact H7|]. split; [exact H8|].
  destruct (attach_colliding_names_keeps_last Corner.service "exp1"
              "run123" "run124" _ _ "My-Run" "My_Run" _ [] Sample.logged
              H1 H2 H3 H4 H5 H6 H7 H8)
    as (w1 & w2 & cfg2 & Ha & Hb & Hc & Hd & He & _).
  exists w1, w2, cfg2. now repeat split.
Defined.

Lemma attach_changes_two_records_witness :
  _add_fiftyone_run_for_mlflow_run Sample.service "exp1" "run123" Sample.logged
  = (inr tt,
     {| ds := Sample.linked;
        trace := [EvGetRun "run123"; EvRegisterRun "My_Run";
                  EvUpdateRunConfig "exp1"] |})
  /\ exists r run_name cfg cfg',
       get_run Sample.service "run123" = inr r
       /\ tags (data r) !! "mlflow.runName" = Some run_name
       /\ (forall k, k <> _format_run_name run_name -> k <> "exp1" ->
                     runs Sample.linked !! k = runs (ds Sample.logged) !! k)
       /\ name Sample.linked = name (ds Sample.logged)
       /\ runs (ds Sample.logged) !! "exp1" = Some cfg
       /\ runs Sample.linked !! "exp1" = Some cfg'
       /\ (forall a, a <> "runs" -> cfg' !! a = cfg !! a).
Proof.
  assert (H : _add_fiftyone_run_for_mlflow_run Sample.service "exp1" "run123"
                Sample.logged
              = (inr tt,
                 {| ds := Sample.linked;
                    trace := [EvGetRun "run123"; EvRegisterRun "My_Run";
                              EvUpdateRunConfig "exp1"] |}))
    by (vm_compute; reflexivity).
  split; [exact H|].
  exact (attach_changes_two_records Sample.service "exp1" "run123" _ _ H).
Defined.

Lemma attach_named_as_experiment_replaces_it_witness :
  get_run Corner.service "run125" = inr Corner.run125
  /\ tags (data Corner.run125) !! "mlflow.runName" = Some "exp1"
  /\ _format_run_name "exp1" = "exp1"
  /\ exists w',
       _add_fiftyone_run_for_mlflow_run Corner.service "exp1" "run125"
         Sample.logged = (inl (AttributeError "runs"), w')
       /\ runs (ds w') !! "exp1" = Some (run_config "run125" "exp1" Corner.run125)
       /\ trace w' = [EvGetRun "run125"; EvRegisterRun "exp1"].
Proof.
  assert (H1 : get_run Corner.service "run125" = inr Corner.run125) by reflexivity.
  assert (H2 : tags (data Corner.run125) !! "mlflow.runName" = Some "exp1")
    by reflexivity.
  assert (H3 : _format_run_name "exp1" = "exp1") by reflexivity.
  split; [exact H1|]. split; [exact H2|]. split; [exact H3|].
  destruct (attach_named_as_experiment_replaces_it Corner.service
              "exp1" "run125" _ "exp1" Sample.logged H1 H2 H3)
    as (w' & Ha & Hb & _ & Hc).
  exists w'. now repeat split.
Defined.

Lemma attach_to_record_without_run_list_witness :
  get_run Sample.service "run123" = inr Sample.run123
  /\ tags (data Sample.run123) !! "mlflow.runName" = Some "My-Run"
  /\ _format_run_name "My-Run" <> "exp1"
  /\ runs (ds Corner.foreign) !! "exp1"
     = Some (setattr ∅ "method" (VStr "evaluation"))
  /\ (forall l, getattr (setattr ∅ "method" (VStr "evaluation")) "runs"
                <> inr (VList l))
  /\ exists w',
       _add_fiftyone_run_for_mlflow_run Sample.service "exp1" "run123"
         Corner.foreign = (inl (AttributeError "runs"), w')
       /\ runs (ds w') !! "My_Run"
          = Some (run_config "run123" "My-Run" Sample.run123)
       /\ runs (ds w') !! "exp1" = Some (setattr ∅ "method" (VStr "evaluation")).
Proof.
  assert (H1 : get_run Sample.service "run123" = inr Sample.run123) by reflexivity.
  assert (H2 : tags (data Sample.run123) !! "mlflow.runName" = Some "My-Run")
    by reflexivity.
  assert (H3 : _format_run_name "My-Run" <> "exp1") by discriminate.
  assert (H4 : runs (ds Corner.foreign) !! "exp1"
               = Some (setattr ∅ "method" (VStr "evaluation")))
    by (vm_compute; reflexivity).
  assert (H5 : forall l, getattr (setattr ∅ "method" (VStr "evaluation")) "runs"
                         <> inr (VList l)) by (intros l; discriminate).
  split; [exact H1|]. split; [exact H2|]. split; [exact H3|]. split; [exact H4|].
  split; [exact H5|].
  destruct (attach_to_record_without_run_list Sample.service
              "exp1" "run123" _ "My-Run" _ Corner.foreign H1 H2 H3 H4 H5)
    as (w' & Ha & Hb & Hc & _).
  exists w'. now repeat split.
Defined.

Lemma initialize_after_attach_forgets_runs_witness :
  _add_fiftyone_run_for_mlflow_run Sample.service "exp1" "run123" Sample.logged
  = (inr tt,
     {| ds := Sample.linked;
        trace := [EvGetRun "run123"; EvRegisterRun "My_Run";
                  EvUpdateRunConfig "exp1"] |})
  /\ get_experiment_by_name Sample.service "exp1" = inr (Some Sample.exp1)
  /\ exists w2 cfg,
       _initialize_fiftyone_run_for_mlflow_experiment Sample.service "exp1" None
         {| ds := Sample.linked;
            trace := [EvGetRun "run123"; EvRegisterRun "My_Run";
                      EvUpdateRunConfig "exp1"] |} = (inr tt, w2)
       /\ runs (ds w2) !! "exp1" = Some cfg
       /\ getattr cfg "runs" = inr (VList [])
       /\ is_Some (runs (ds w2) !! "My_Run").
Proof.
  assert (H1 : _add_fiftyone_run_for_mlflow_run Sample.service "exp1" "run123"
                 Sample.logged
               = (inr tt,
                  {| ds := Sample.linked;
                     trace := [EvGetRun "run123"; EvRegisterRun "My_Run";
                               EvUpdateRunConfig "exp1"] |}))
    by (vm_compute; reflexivity).
  assert (H2 : get_experiment_by_name Sample.service "exp1"
               = inr (Some Sample.exp1)) by reflexivity.
  split; [exact H1|]. split; [exact H2|].
  destruct (initialize_after_attach_forgets_runs Sample.service
              "exp1" "run123" None Sample.exp1 _ _ H1 H2)
    as (w2 & r & run_name & Ha & Hb & Hc & Hr & Ht & Hd).
  exists w2, (experiment_config "exp1" (py_or None "http://localhost:8080") Sample.exp1).
  split; [exact Ha|]. split; [exact Hb|]. split; [exact Hc|].
  injection Hr as <-. vm_compute in Ht. injection Ht as <-.
  change "My_Run" with (_format_run_name "My-Run"). rewrite Hd. eauto.
Defined.

Lemma log_stops_at_unknown_experiment_witness :
  (runs (_dataset (Dataset (ds Sample.fresh))) !! "exp2" = None
   /\ get_experiment_by_name Corner.service "exp2" = inl Sample.not_found
   /\ log_mlflow_run_to_fiftyone_dataset Corner.service
        (Dataset (ds Sample.fresh)) "exp2" (Some "run123") []
      = (inl Sample.not_found,
         (Dataset (ds Sample.fresh), [] ++ [EvGetExperimentByName "exp2"])))
  /\ (runs (_dataset (Dataset (ds Sample.fresh))) !! "ghost" = None
      /\ get_experiment_by_name Corner.service "ghost" = inr None
      /\ log_mlflow_run_to_fiftyone_dataset Corner.service
           (Dataset (ds Sample.fresh)) "ghost" (Some "run123") []
         = (inl (AttributeError "artifact_location"),
            (Dataset (ds Sample.fresh), [] ++ [EvGetExperimentByName "ghost"]))).
Proof.
  assert (H1 : runs (_dataset (Dataset (ds Sample.fresh))) !! "exp2" = None)
    by reflexivity.
  assert (H2 : get_experiment_by_name Corner.service "exp2" = inl Sample.not_found)
    by reflexivity.
  assert (H3 : runs (_dataset (Dataset (ds Sample.fresh))) !! "ghost" = None)
    by reflexivity.
  assert (H4 : get_experiment_by_name Corner.service "ghost" = inr None)
    by reflexivity.
  split.
  - split; [exact H1|]. split; [exact H2|].
    exact (proj1 (log_stops_at_unknown_experiment Corner.service
                    (Dataset (ds Sample.fresh)) "exp2" (Some "run123") [] H1)
             _ H2).
  - split; [exact H3|]. split; [exact H4|].
    exact (proj2 (log_stops_at_unknown_experiment Corner.service
                    (Dataset (ds Sample.fresh)) "ghost" (Some "run123") [] H3)
             H4).
Defined.

Lemma log_keeps_experiment_when_run_is_unknown_witness :
  runs (_dataset (Dataset (ds Sample.fresh))) !! "exp1" = None
  /\ get_experiment_by_name Sample.service "exp1" = inr (Some Sample.exp1)
  /\ truthy (Some "run789") = true
  /\ get_run Sample.service "run789" = inl Sample.not_found
  /\ exists sc',
       log_mlflow_run_to_fiftyone_dataset Sample.service
         (Dataset (ds Sample.fresh)) "exp1" (Some "run789") []
       = (inl Sample.not_found,
          (sc', [EvGetExperimentByName "exp1"; EvRegisterRun "exp1";
                 EvGetRun "run789"]))
       /\ runs (_dataset sc') !! "exp1"
          = Some (experiment_config "exp1" "http://localhost:8080" Sample.exp1).
Proof.
  assert (H1 : runs (_dataset (Dataset (ds Sample.fresh))) !! "exp1" = None)
    by reflexivity.
  assert (H2 : get_experiment_by_name Sample.service "exp1"
               = inr (Some Sample.exp1)) by reflexivity.
  assert (H3 : truthy (Some "run789") = true) by reflexivity.
  assert (H4 : get_run Sample.service "run789" = inl Sample.not_found)
    by reflexivity.
  split; [exact H1|]. split; [exact H2|]. split; [exact H3|]. split; [exact H4|].
  destruct (log_keeps_experiment_when_run_is_unknown Sample.service
              (Dataset (ds Sample.fresh)) "exp1" "run789" [] _ _ H1 H2 H3 H4)
    as (sc' & Ha & Hb & _).
  exists sc'. now split.
Defined.

Lemma log_in_two_steps_witness :
  truthy None = false
  /\ log_mlflow_run_to_fiftyone_dataset Sample.service
       (Dataset (ds Sample.fresh)) "exp1" None []
     = (inr tt, (Dataset (ds Sample.logged),
                 [EvGetExperimentByName "exp1"; EvRegisterRun "exp1"]))
  /\ log_mlflow_run_to_fiftyone_dataset Sample.service
       (Dataset (ds Sample.logged)) "exp1" (Some "run123")
       [EvGetExperimentByName "exp1"; EvRegisterRun "exp1"]
     = log_mlflow_run_to_fiftyone_dataset Sample.service
         (Dataset (ds Sample.fresh)) "exp1" (Some "run123") [].
Proof.
  assert (H1 : truthy None = false) by reflexivity.
  assert (H2 : log_mlflow_run_to_fiftyone_dataset Sample.service
                 (Dataset (ds Sample.fresh)) "exp1" None []
               = (inr tt, (Dataset (ds Sample.logged),
                           [EvGetExperimentByName "exp1"; EvRegisterRun "exp1"])))
    by (vm_compute; reflexivity).
  split; [exact H1|]. split; [exact H2|].
  exact (log_in_two_steps Sample.service _ "exp1" None (Some "run123") _ _ _ H1 H2).
Defined.

Lemma log_never_removes_a_record_witness :
  log_mlflow_run_to_fiftyone_dataset Corner.service
    (DatasetView (ds Sample.logged) ["limit"]) "exp1" (Some "run125") []
  = (inl (AttributeError "runs"),
     (DatasetView (store "exp1" (run_config "run125" "exp1" Corner.run125)
                     (ds Sample.logged)) ["limit"],
      [EvGetRun "run125"; EvRegisterRun "exp1"]))
  /\ (forall k, is_Some (runs (ds Sample.logged) !! k) ->
                is_Some (runs (store "exp1" (run_config "run125" "exp1" Corner.run125)
                                 (ds Sample.logged)) !! k))
  /\ name (store "exp1" (run_config "run125" "exp1" Corner.run125)
             (ds Sample.logged)) = "quickstart"
  /\ exists evs, [EvGetRun "run125"; EvRegisterRun "exp1"] = [] ++ evs.
Proof.
  assert (H : log_mlflow_run_to_fiftyone_dataset Corner.service
                (DatasetView (ds Sample.logged) ["limit"]) "exp1" (Some "run125") []
              = (inl (AttributeError "runs"),
                 (DatasetView (store "exp1" (run_config "run125" "exp1" Corner.run125)
                                 (ds Sample.logged)) ["limit"],
                  [EvGetRun "run125"; EvRegisterRun "exp1"])))
    by (vm_compute; reflexivity).
  split; [exact H|].
  destruct (log_never_removes_a_record Corner.service _ _ _ _ _ _ _ H)
    as (Hk & Hn & _ & Hev).
  split; [exact Hk|]. split; [exact Hn|exact Hev].
Defined.

Lemma candidate_experiments_need_every_method_witness :
  (∅ : RunConfig) ∈ records (Sample.links_world
                               {[ "exp1" := Sample.x_record; "junk" := ∅ ]})
  /\ getattr ∅ "method" = inl (AttributeError "method")
  /\ exists cfg' e',
       cfg' ∈ records (Sample.links_world
                         {[ "exp1" := Sample.x_record; "junk" := ∅ ]})
       /\ getattr cfg' "method" = inl e'
       /\ get_candidate_experiments Sample.plain
            (Sample.links_world {[ "exp1" := Sample.x_record; "junk" := ∅ ]})
          = (inl e',
             Sample.links_world {[ "exp1" := Sample.x_record; "junk" := ∅ ]}).
Proof.
  assert (H1 : (∅ : RunConfig)
               ∈ records (Sample.links_world
                            {[ "exp1" := Sample.x_record; "junk" := ∅ ]})).
  { apply (records_lookup _ "junk"). vm_compute. reflexivity. }
  assert (H2 : getattr ∅ "method" = inl (AttributeError "method")) by reflexivity.
  split; [exact H1|]. split; [exact H2|].
  exact (candidate_experiments_need_every_method Sample.plain _ _ _ H1 H2).
Defined.

Lemma candidate_experiments_need_name_and_id_witness :
  (forall c, c ∈ records (Sample.links_world {[ "exp1" := Corner.no_id_record ]}) ->
             exists m, getattr c "method" = inr m)
  /\ Corner.no_id_record
     ∈ records (Sample.links_world {[ "exp1" := Corner.no_id_record ]})
  /\ is_experiment Corner.no_id_record = true
  /\ getattr Corner.no_id_record "tracking_uri" = inr (VStr "http://x")
  /\ getattr Corner.no_id_record "experiment_id"
     = inl (AttributeError "experiment_id")
  /\ exists cfg' e',
       cfg' ∈ records (Sample.links_world {[ "exp1" := Corner.no_id_record ]})
       /\ (getattr cfg' "experiment_name" = inl e'
           \/ getattr cfg' "experiment_id" = inl e')
       /\ get_candidate_experiments Sample.plain
            (Sample.links_world {[ "exp1" := Corner.no_id_record ]})
          = (inl e', Sample.links_world {[ "exp1" := Corner.no_id_record ]}).
Proof.
  assert (H1 : forall c,
             c ∈ records (Sample.links_world {[ "exp1" := Corner.no_id_record ]}) ->
             exists m, getattr c "method" = inr m).
  { intros c Hin. apply records_elem in Hin. destruct Hin as [k Hk].
    simpl in Hk. apply lookup_singleton_Some in Hk. destruct Hk as [_ <-].
    now exists (VStr "mlflow_experiment"). }
  assert (H2 : Corner.no_id_record
               ∈ records (Sample.links_world {[ "exp1" := Corner.no_id_record ]})).
  { apply (records_lookup _ "exp1"). simpl. apply lookup_singleton_eq. }
  assert (H3 : is_experiment Corner.no_id_record = true) by reflexivity.
  assert (H4 : getattr Corner.no_id_record "experiment_id"
               = inl (AttributeError "experiment_id")) by reflexivity.
  split; [exact H1|]. split; [exact H2|]. split; [exact H3|].
  split; [reflexivity|]. split; [exact H4|].
  destruct (candidate_experiments_need_name_and_id Sample.plain _ _ _
              H1 H2 H3 (or_intror H4))
    as (cfg' & e' & Ha & _ & Hb & Hc).
  exists cfg', e'. now repeat split.
Defined.

Lemma logged_experiment_is_listed_witness :
  runs (_dataset (DatasetView (ds Sample.fresh) ["limit"])) !! "exp1" = None
  /\ (forall c,
        c ∈ records {| ds := _dataset (DatasetView (ds Sample.fresh) ["limit"]);
                       trace := [] |} -> readable c)
  /\ get_experiment_by_name Sample.service "exp1" = inr (Some Sample.exp1)
  /\ log_mlflow_run_to_fiftyone_dataset Sample.service
       (DatasetView (ds Sample.fresh) ["limit"]) "exp1" (Some "run123") []
     = (inr tt,
        (DatasetView Sample.linked ["limit"],
         [EvGetExperimentByName "exp1"; EvRegisterRun "exp1"; EvGetRun "run123";
          EvRegisterRun "My_Run"; EvUpdateRunConfig "exp1"]))
  /\ exists L,
       fst (get_candidate_experiments Sample.plain
              {| ds := Sample.linked;
                 trace := [EvGetExperimentByName "exp1"; EvRegisterRun "exp1";
                           EvGetRun "run123"; EvRegisterRun "My_Run";
                           EvUpdateRunConfig "exp1"] |})
       = inr {[ "urls" := L ]}
       /\ {[ "url" := VStr "http://localhost:8080/#/experiments/42";
             "name" := VStr "exp1" ]} ∈ L.
Proof.
  assert (H1 : runs (_dataset (DatasetView (ds Sample.fresh) ["limit"])) !! "exp1"
               = None) by reflexivity.
  assert (H2 : forall c,
             c ∈ records {| ds := _dataset (DatasetView (ds Sample.fresh) ["limit"]);
                            trace := [] |} -> readable c).
  { intros c Hin. apply records_elem in Hin. destruct Hin as [k Hk].
    simpl in Hk. rewrite lookup_empty in Hk. discriminate Hk. }
  assert (H3 : get_experiment_by_name Sample.service "exp1"
               = inr (Some Sample.exp1)) by reflexivity.
  assert (H4 : log_mlflow_run_to_fiftyone_dataset Sample.service
                 (DatasetView (ds Sample.fresh) ["limit"]) "exp1" (Some "run123") []
               = (inr tt,
                  (DatasetView Sample.linked ["limit"],
                   [EvGetExperimentByName "exp1"; EvRegisterRun "exp1";
                    EvGetRun "run123"; EvRegisterRun "My_Run";
                    EvUpdateRunConfig "exp1"])))
    by (vm_compute; reflexivity).
  split; [exact H1|]. split; [exact H2|]. split; [exact H3|]. split; [exact H4|].
  destruct (logged_experiment_is_listed Sample.plain Sample.service
              _ _ _ _ _ _ _ H1 H2 H3 H4) as (L & Hrun & Hin).
  exists L. simpl in Hrun. rewrite Hrun. split; [reflexivity|exact Hin].
Defined.
